(** * conn2res: readout training ([conn2res/task.py]) and the example-1
      sweep over rewired nulls ([examples/example1_sims.py])

    A shallow embedding of the two Python modules.  NumPy arrays are
    records of an element type tag, a shape and a flat payload; the
    objects the code only consumes (scikit-learn estimators, the
    [performance] module, pandas, the connectivity and reservoir classes)
    are interfaces, given as type classes; Python exceptions are values of
    [exn]; side effects (object mutation, calls into the collaborators,
    files written) are threaded through an explicit state that also keeps
    a log of the calls made. *)

From stdpp Require Import base decidable option list strings gmap pretty.
From stdpp Require Import ssreflect.

Open Scope string_scope.
Open Scope list_scope.

#[global] Set Warnings "-rewrite-rw".

(** ** Python exceptions and the state-and-exception monad *)

Inductive exn : Type :=
  | TypeError (msg : string)
  | AttributeError (obj name : string)
  | UnboundLocalError (var : string)
  | IndexError (msg : string)
  | KeyError (key : string)
  | ValueError (msg : string)
  | Raised (origin msg : string).

Definition result (A : Type) : Type := exn + A.

(** A computation reads and writes a state [S]; an exception keeps the
    state reached so far (effects already performed are not undone). *)
Definition M (S A : Type) : Type := S → result A * S.

Definition retM {S A} (a : A) : M S A := λ σ, (inr a, σ).

Definition bindM {S A B} (f : A → M S B) (c : M S A) : M S B :=
  λ σ, match c σ with
       | (inr a, σ') => f a σ'
       | (inl e, σ') => (inl e, σ')
       end.

Definition raise {S A} (e : exn) : M S A := λ σ, (inl e, σ).

Definition lift_result {S A} (r : result A) : M S A := λ σ, (r, σ).

Definition getM {S} : M S S := λ σ, (inr σ, σ).

Definition modifyM {S} (f : S → S) : M S unit := λ σ, (inr (), f σ).

#[global] Instance M_ret {S} : MRet (M S) := λ A, @retM S A.
#[global] Instance M_bind {S} : MBind (M S) := λ A B, @bindM S A B.

(** ** NumPy arrays *)

(** The scalar types ([np.float64], [np.int32], ...). *)
Inductive np_type : Type :=
  | np_bool
  | np_int8 | np_int16 | np_int32 | np_int64
  | np_uint8 | np_uint16 | np_uint32 | np_uint64
  | np_float16 | np_float32 | np_float64 | np_longdouble
  | np_complex64 | np_complex128
  | np_object.

#[global] Instance np_type_eq_dec : EqDecision np_type.
Proof. solve_decision. Defined.

(** The byte order of the elements, relative to the machine:
    [order_native] is NumPy's [=] (and [|], which it gives to the types
    of one byte), [order_swapped] the opposite order ([dtype('>f8')] on
    a little-endian machine). *)
Inductive byteorder : Type := order_native | order_swapped.

#[global] Instance byteorder_eq_dec : EqDecision byteorder.
Proof. solve_decision. Defined.

(** [ndarray.dtype]: the scalar type and the byte order.  Two dtypes of
    the same scalar type and different byte order are not equal. *)
Record np_dtype : Type := mk_dtype {
  dt_type : np_type;
  dt_order : byteorder
}.

#[global] Instance np_dtype_eq_dec : EqDecision np_dtype.
Proof. solve_decision. Defined.

(** A scalar type where a dtype is expected ([np.dtype(np.float64)], the
    right-hand side of [y.dtype == np.float64]) stands for the dtype of
    that type in native byte order. *)
Definition type_dtype (t : np_type) : np_dtype := mk_dtype t order_native.
Coercion type_dtype : np_type >-> np_dtype.

(** [np.issubdtype(d, np.floating)] and [np.issubdtype(d, np.integer)]. *)
Definition is_floating (d : np_dtype) : bool :=
  match dt_type d with
  | np_float16 | np_float32 | np_float64 | np_longdouble => true
  | _ => false
  end.

Definition is_integer (d : np_dtype) : bool :=
  match dt_type d with
  | np_int8 | np_int16 | np_int32 | np_int64
  | np_uint8 | np_uint16 | np_uint32 | np_uint64 => true
  | _ => false
  end.

(** An array: its dtype, its shape and its elements in row-major order.
    An element is kept as the integer its stored bits denote; for the
    integer dtypes this is the element's value. *)
Record ndarray : Type := mk_ndarray {
  dtype : np_dtype;
  shape : list nat;
  data : list Z
}.

#[global] Instance ndarray_eq_dec : EqDecision ndarray.
Proof. solve_decision. Defined.

Definition ndim (a : ndarray) : nat := length (shape a).

(** [a.squeeze()]: every axis of length one is removed. *)
Definition squeeze (a : ndarray) : ndarray :=
  {| dtype := dtype a; shape := filter (λ n, n ≠ 1) (shape a); data := data a |}.

(** [a[:, np.newaxis]]: a new axis of length one after the first axis; a
    0-d array has no first axis to slice. *)
Definition newaxis1 (a : ndarray) : result ndarray :=
  match shape a with
  | [] => inl (IndexError "too many indices for array")
  | n :: rest => inr {| dtype := dtype a; shape := n :: 1 :: rest; data := data a |}
  end.

(** [len(np.unique(a))]. *)
Definition unique_count (a : ndarray) : nat := length (remove_dups (data a)).

(** ** Collaborators of [task.py] *)

(** Keyword dictionaries ([model_kws], [metric_kws]): keys in insertion
    order.  A float literal is its mantissa and binary exponent
    ([0.5] is [PyFloat 1 (-1)]). *)
Inductive pyval : Type :=
  | PyBool (b : bool)
  | PyInt (n : Z)
  | PyFloat (m e : Z)
  | PyStr (s : string).

Definition kws : Type := list (string * pyval).

(** [d[k] = v] on a dictionary kept in insertion order: an existing key
    keeps its place and takes the new value, a new key goes last. *)
Fixpoint dict_set {V} (d : list (string * V)) (k : string) (v : V)
  : list (string * V) :=
  match d with
  | [] => [(k, v)]
  | (k', v') :: d' =>
      if decide (k' = k) then (k, v) :: d' else (k', v') :: dict_set d' k v
  end.

(** The estimator capability set of scikit-learn: the two default
    constructors and the three methods the code calls.  [E] is the state
    of an estimator object (its class, hyper-parameters and fitted
    coefficients); [est_fit] gives the state after [fit], which mutates
    the object.  Metric values are arrays (a scalar is a 0-d array). *)
Class Sklearn (E : Type) : Type := {
  Ridge : kws → result E;
  RidgeClassifier : kws → result E;
  est_fit : E → ndarray → ndarray → option ndarray → result E;
  est_predict : E → ndarray → result ndarray;
  est_score : E → ndarray → ndarray → option ndarray → result ndarray
}.

(** A function of the [performance] module, called as
    [func(y_true, y_pred, sample_weight=w, **config)]. *)
Definition metric_fn : Type :=
  ndarray → ndarray → option ndarray → kws → result ndarray.

(** The [performance] module as seen through [getattr]: the attribute
    bound to a name, if any. *)
Class Performance : Type := {
  performance : string → option metric_fn
}.

(** [pd.DataFrame(data=metrics, index=[0])] for a frame type [F]. *)
Class Pandas (F : Type) : Type := {
  pd_DataFrame : list (string * ndarray) → result F
}.

Module Task.

(** *** [check_xy_dims] *)

Definition check_xy_dims {S} (x y : ndarray * ndarray)
  : M S (ndarray * ndarray * ndarray * ndarray) :=
  let '(x_train, x_test) := x in
  let '(y_train, y_test) := y in
  '(x_train, x_test) ←
    (if bool_decide (ndim x_train = 1) && bool_decide (ndim x_test = 1) then
       x_train' ← lift_result (newaxis1 x_train);
       x_test' ← lift_result (newaxis1 x_test);
       mret (x_train', x_test')
     else if bool_decide (2 < ndim x_train) && bool_decide (2 < ndim x_test) then
       mret (squeeze x_train, squeeze x_test)
     else
       mret (x_train, x_test));
  let y_train := squeeze y_train in
  let y_test := squeeze y_test in
  mret (x_train, x_test, y_train, y_test).

(** *** [select_model] *)

(** The two functions [select_model] can return. *)
Inductive strategy : Type := regression_fn | classification_fn.

#[global] Instance strategy_eq_dec : EqDecision strategy.
Proof. solve_decision. Defined.

(** [None] is Python's [None]: the value of a call that reaches the end
    of the body without a [return].  [y.dtype in [np.float32, np.float64]]
    compares the dtype with each scalar type by [==], which holds for
    the dtype of that type in native byte order only. *)
Definition select_model (y : ndarray) : option strategy :=
  if bool_decide (dtype y ∈ [type_dtype np_float32; type_dtype np_float64]) then
    if bool_decide (ndim (squeeze y) = 1) then Some regression_fn
    else Some regression_fn
  else if bool_decide (dtype y ∈ [type_dtype np_int32; type_dtype np_int64]) then
    if bool_decide (ndim (squeeze y) = 1) then
      if bool_decide (unique_count y = 2) then Some classification_fn
      else Some classification_fn
    else Some classification_fn
  else None.

(** *** Estimator objects and the call log *)

(** Estimator objects live in a store and are named by their index, so
    that a model supplied by the caller is the same object at every use. *)
Definition loc : Type := nat.

Inductive est_class : Type := cls_Ridge | cls_RidgeClassifier.

Inductive event : Type :=
  | EvNew (l : loc) (c : est_class) (kw : kws)
  | EvFit (l : loc) (x y : ndarray) (sample_weight : option ndarray)
  | EvScore (l : loc) (x y : ndarray) (sample_weight : option ndarray)
  | EvGetattr (name : string)
  | EvPredict (l : loc) (x : ndarray)
  | EvMetric (name : string) (y_true y_pred : ndarray)
      (sample_weight : option ndarray) (kw : kws)
  | EvPrint (m : string) (v : ndarray).

Record state (E : Type) : Type := mk_state {
  store : list E;
  log : list event
}.
Arguments mk_state {E} _ _.
Arguments store {E} _.
Arguments log {E} _.

(** The keyword arguments the two training functions read; any other
    keyword ends in their [**kwargs] and is never looked at. *)
Inductive sw_value : Type :=
  | SwNone
  | SwPair (sample_weight_train sample_weight_test : option ndarray).

Record kwargs : Type := mk_kwargs {
  kw_model : option loc;
  kw_model_kws : option kws;
  kw_metric_kws : option kws;
  kw_sample_weight : option sw_value
}.

(** [metric] is one name or a sequence of names. *)
Inductive metric_arg : Type :=
  | MStr (m : string)
  | MSeq (ms : list string).

Section task.
Context {E F : Type} `{!Sklearn E, !Performance, !Pandas F}.

Local Abbreviation T := (M (state E)).

Definition emit (ev : event) : T unit :=
  modifyM (λ σ, mk_state (store σ) (log σ ++ [ev])).

(** Reading an object of the store; a reference is always to a live
    object, the failure is for indices no caller can hold. *)
Definition deref (l : loc) : T E :=
  σ ← getM;
  match store σ !! l with
  | Some e => mret e
  | None => raise (Raised "store" "dangling reference")
  end.

(** the call of the class on the unpacked [model_kws]: a new object, last in the store. *)
Definition new_estimator (c : est_class) (kw : kws) : T loc :=
  e ← lift_result (match c with
                   | cls_Ridge => Ridge kw
                   | cls_RidgeClassifier => RidgeClassifier kw
                   end);
  σ ← getM;
  let l := length (store σ) in
  modifyM (λ σ, mk_state (store σ ++ [e]) (log σ ++ [EvNew l c kw]));;
  mret l.

(** [model.fit(x, y, sample_weight)]: the object is updated in place; a
    fit that raises leaves it as it was. *)
Definition model_fit (l : loc) (x y : ndarray) (w : option ndarray) : T unit :=
  e ← deref l;
  emit (EvFit l x y w);;
  e' ← lift_result (est_fit e x y w);
  modifyM (λ σ, mk_state (<[l := e']> (store σ)) (log σ)).

(** [model.score(x, y, sample_weight=w)]. *)
Definition model_score (l : loc) (x y : ndarray) (w : option ndarray)
  : T ndarray :=
  e ← deref l;
  emit (EvScore l x y w);;
  lift_result (est_score e x y w).

(** [model.predict(x)]. *)
Definition model_predict (l : loc) (x : ndarray) : T ndarray :=
  e ← deref l;
  emit (EvPredict l x);;
  lift_result (est_predict e x).

(** [getattr(performance, metric)]. *)
Definition getattr_performance (metric : string) : T metric_fn :=
  emit (EvGetattr metric);;
  match performance metric with
  | Some func => mret func
  | None => raise (AttributeError "performance" metric)
  end.

(** [func(y_test, y_pred, sample_weight=w, **metric_kws)]; a
    [sample_weight] key inside [metric_kws] is a duplicate keyword. *)
Definition call_metric (metric : string) (func : metric_fn)
    (y_true y_pred : ndarray) (w : option ndarray) (metric_kws : kws)
  : T ndarray :=
  if bool_decide ("sample_weight" ∈ metric_kws.*1) then
    raise (TypeError "got multiple values for keyword argument 'sample_weight'")
  else
    emit (EvMetric metric y_true y_pred w metric_kws);;
    lift_result (func y_true y_pred w metric_kws).

(** [kwargs.pop('sample_weight', (None, None))], unpacked into two. *)
Definition pop_sample_weight (kw : kwargs)
  : T (option ndarray * option ndarray) :=
  match kw_sample_weight kw with
  | None => mret (None, None)
  | Some (SwPair a b) => mret (a, b)
  | Some SwNone => raise (TypeError "cannot unpack non-iterable NoneType object")
  end.

(** *** [regression] *)

Definition regression (x y : ndarray * ndarray) (metric : string) (kw : kwargs)
  : T (ndarray * loc) :=
  let model := kw_model kw in
  let model_kws :=
    default [("alpha", PyFloat 1 (-1)); ("fit_intercept", PyBool true)]
            (kw_model_kws kw) in
  let metric_kws :=
    default [("multioutput", PyStr "uniform_average")] (kw_metric_kws kw) in
  '(sample_weight_train, sample_weight_test) ← pop_sample_weight kw;
  let '(x_train, x_test) := x in
  let '(y_train, y_test) := y in
  model ← match model with
          | None => new_estimator cls_Ridge model_kws
          | Some l => mret l
          end;
  model_fit model x_train y_train sample_weight_train;;
  metric_value ←
    (if decide (metric = "score") then
       model_score model x_test y_test sample_weight_test
     else
       func ← getattr_performance metric;
       y_pred ← model_predict model x_test;
       call_metric metric func y_test y_pred sample_weight_test metric_kws);
  mret (metric_value, model).

(** *** [classification] *)

Definition classification (x y : ndarray * ndarray) (metric : string)
    (kw : kwargs) : T (ndarray * loc) :=
  let model := kw_model kw in
  let model_kws :=
    default [("alpha", PyFloat 1 (-1)); ("fit_intercept", PyBool true)]
            (kw_model_kws kw) in
  let metric_kws := default [] (kw_metric_kws kw) in
  '(sample_weight_train, sample_weight_test) ← pop_sample_weight kw;
  let '(x_train, x_test) := x in
  let '(y_train, y_test) := y in
  model ← match model with
          | None => new_estimator cls_RidgeClassifier model_kws
          | Some l => mret l
          end;
  model_fit model x_train y_train sample_weight_train;;
  metric_value ←
    (if decide (metric = "score") then
       model_score model x_test y_test sample_weight_test
     else
       func ← getattr_performance metric;
       y_pred ← model_predict model x_test;
       call_metric metric func y_test y_pred sample_weight_test metric_kws);
  mret (metric_value, model).

(** *** [run_task] *)

(** Calling what [select_model] returned; [None] is not callable. *)
Definition call_strategy (func : option strategy)
    (x y : ndarray * ndarray) (metric : string) (kw : kwargs)
  : T (ndarray * loc) :=
  match func with
  | Some regression_fn => regression x y metric kw
  | Some classification_fn => classification x y metric kw
  | None => raise (TypeError "'NoneType' object is not callable")
  end.

(** The [for m in metric] loop: the dictionary [metrics] and the
    variable [model], which is unbound until the first pass ends. *)
Fixpoint run_task_loop (func : option strategy) (x y : ndarray * ndarray)
    (kw : kwargs) (metric : list string)
    (metrics : list (string * ndarray)) (model : option loc)
  : T (list (string * ndarray) * option loc) :=
  match metric with
  | [] => mret (metrics, model)
  | m :: rest =>
      '(metric_value, model') ← call_strategy func x y m kw;
      let metrics := dict_set metrics m metric_value in
      emit (EvPrint m metric_value);;
      run_task_loop func x y kw rest metrics (Some model')
  end.

(** [if isinstance(metric, str): metric = (metric,)]. *)
Definition metric_names (metric : metric_arg) : list string :=
  match metric with
  | MStr m => [m]
  | MSeq ms => ms
  end.

Definition run_task (reservoir_states target : ndarray * ndarray)
    (metric : metric_arg) (kw : kwargs) : T (F * loc) :=
  '(x_train, x_test, y_train, y_test) ← check_xy_dims reservoir_states target;
  let func := select_model y_train in
  let metric := metric_names metric in
  '(metrics, model) ←
    run_task_loop func (x_train, x_test) (y_train, y_test) kw metric [] None;
  df_res ← lift_result (pd_DataFrame metrics);
  match model with
  | Some model => mret (df_res, model)
  | None => raise (UnboundLocalError "model")
  end.

(** *** Reading the functions' defaults and the call log *)

(** The estimator class and the [metric_kws] default of each function. *)
Definition default_class (s : strategy) : est_class :=
  match s with
  | regression_fn => cls_Ridge
  | classification_fn => cls_RidgeClassifier
  end.

Definition default_metric_kws (s : strategy) : kws :=
  match s with
  | regression_fn => [("multioutput", PyStr "uniform_average")]
  | classification_fn => []
  end.

Definition default_model_kws : kws :=
  [("alpha", PyFloat 1 (-1)); ("fit_intercept", PyBool true)].

Definition construct (c : est_class) (kw : kws) : result E :=
  match c with
  | cls_Ridge => Ridge kw
  | cls_RidgeClassifier => RidgeClassifier kw
  end.

(** The pair of sample weights a call runs with, when [sample_weight]
    can be unpacked. *)
Definition sample_weights (kw : kwargs)
  : option (option ndarray * option ndarray) :=
  match kw_sample_weight kw with
  | None => Some (None, None)
  | Some (SwPair a b) => Some (a, b)
  | Some SwNone => None
  end.

Definition train_weight (kw : kwargs) : option ndarray :=
  match sample_weights kw with
  | Some (w, _) => w
  | None => None
  end.

Definition is_fit (ev : event) : bool :=
  match ev with
  | EvFit _ _ _ _ => true
  | _ => false
  end.

(** The objects [k] successive calls fit, in a store of [n] objects: the
    caller's model each time, or a new object per call. *)
Definition fit_locs (kw : kwargs) (n k : nat) : list loc :=
  match kw_model kw with
  | Some l => replicate k l
  | None => seq n k
  end.

(** The estimator a training call works on, in the state [σ] it starts
    from: the caller's object, or a new default object, which the call
    logs and puts last in the store.  [pre] is what the call logs for it
    and [st1] the store once it is there. *)
Definition resolved_model (s : strategy) (kw : kwargs) (σ : state E)
    (l : loc) (e0 : E) (pre : list event) (st1 : list E) : Prop :=
  match kw_model kw with
  | Some l0 => l = l0 ∧ store σ !! l = Some e0 ∧ pre = [] ∧ st1 = store σ
  | None =>
      l = length (store σ) ∧
      construct (default_class s) (default default_model_kws (kw_model_kws kw))
        = inr e0 ∧
      pre = [EvNew l (default_class s)
               (default default_model_kws (kw_model_kws kw))] ∧
      st1 = store σ ++ [e0]
  end.

(** The value a training call returns with: the metric value paired with
    the model, or the exception of the scoring step. *)
Definition with_model (l : loc) (r : result ndarray) : result (ndarray * loc) :=
  match r with
  | inr v => inr (v, l)
  | inl e => inl e
  end.

End task.

End Task.

(** ** Data frames *)

(** A frame is its column labels and its rows; a row maps labels to
    cells, and a label a row lacks reads as NaN (what [pd.concat] puts
    in the holes of an outer join). *)
Inductive cell (float : Type) : Type :=
  | CellFloat (v : float)
  | CellInt (n : Z)
  | CellStr (s : string)
  | CellNaN.
Arguments CellFloat {float} _.
Arguments CellInt {float} _.
Arguments CellStr {float} _.
Arguments CellNaN {float}.

Record frame (float : Type) : Type := mk_frame {
  columns : list string;
  rows : list (list (string * cell float))
}.
Arguments mk_frame {float} _ _.
Arguments columns {float} _.
Arguments rows {float} _.

Section frames.
Context {float : Type}.

Definition row_get (r : list (string * cell float)) (c : string) : cell float :=
  match list_find (λ kv, kv.1 = c) r with
  | Some (_, (_, v)) => v
  | None => CellNaN
  end.

(** [df[c] = v] with a scalar [v]: every row takes [v] in column [c]. *)
Definition frame_set_column (df : frame float) (c : string) (v : cell float)
  : frame float :=
  {| columns := if bool_decide (c ∈ columns df) then columns df
                else columns df ++ [c];
     rows := (λ r, dict_set r c v) <$> rows df |}.

(** [pd.concat(dfs, ignore_index=True)]. *)
Definition pd_concat (dfs : list (frame float)) : result (frame float) :=
  match dfs with
  | [] => inl (ValueError "No objects to concatenate")
  | _ => inr {| columns := remove_dups (concat (columns <$> dfs));
                rows := concat (rows <$> dfs) |}
  end.

(** [df[cols]] with a list of labels. *)
Definition frame_select (df : frame float) (cols : list string)
  : result (frame float) :=
  match list_find (λ c, c ∉ columns df) cols with
  | Some (_, c) => inl (KeyError c)
  | None => inr {| columns := cols;
                   rows := (λ r, (λ c, (c, row_get r c)) <$> cols) <$> rows df |}
  end.

(** One column of a frame, read in row order. *)
Definition column (df : frame float) (c : string) : list (cell float) :=
  (λ r, row_get r c) <$> rows df.

End frames.

(** ** Collaborators of [example1_sims.py] *)

(** [os.path.join(a, b)] for two components. *)
Definition os_path_join (a b : string) : string :=
  if String.prefix "/" b then b
  else if bool_decide (a = "") then b
  else if String.prefix "/" (String.rev a) then a +:+ b
  else a +:+ "/" +:+ b.

(** An [EchoStateNetwork] object: the attribute [w] the sweep assigns to
    and the activation function chosen at construction. *)
Record ESN : Type := mk_ESN {
  esn_w : ndarray;
  activation_function : string
}.

(** What the script takes from NumPy on floats, from the file system and
    from the [conn2res] package: scalars of type [float], the [Conn]
    object (its methods give the object after the call), the reservoir
    simulator and the readout module.  [conn_randomize] draws from the
    random state of the process. *)
Class Conn2res : Type := {
  float : Type;
  np_linspace : Z → Z → nat → list float;
  np_round : float → nat → float;
  np_mul : float → ndarray → ndarray;
  np_load : string → result ndarray;
  rng_state : Type;
  conn : Type;
  Conn : ndarray → result conn;
  conn_w : conn → ndarray;
  conn_n_nodes : conn → nat;
  conn_randomize : nat → conn → rng_state → result conn * rng_state;
  conn_scale_and_normalize : conn → result conn;
  conn_get_nodes : conn → string → result (list Z);
  esn_simulate : ESN → ndarray → ndarray → list Z → result ndarray;
  estimator : Type;
  readout : Type;
  readout_select_model : ndarray → result estimator;
  Readout : estimator → readout;
  readout_train_test_split :
    ndarray → ndarray → result (ndarray * ndarray * ndarray * ndarray);
  readout_run_task :
    readout → ndarray * ndarray → ndarray * ndarray → list string →
    ndarray → kws → result (frame float * readout)
}.

Module Example1.

(** A job descriptor: the keyword arguments of one [run_workflow] call. *)
Record job : Type := mk_job {
  job_w : ndarray;
  job_x : ndarray;
  job_y : ndarray;
  job_filename : string
}.

Section example1.
Context `{!Conn2res}.

(** Module-level values that come from the installation: the two
    directories and the arrays loaded at import time. *)
Context (DATA_DIR OUTPUT_DIR : string) (RSN_MAPPING : ndarray).

Definition N_PROCESS : nat := 32.
Definition METRIC : list string := ["corrcoef"].
Definition metric_kwargs : kws :=
  [("multioutput", PyStr "sum"); ("nonnegative", PyStr "absolute")].
Definition ALPHAS : list float := drop 1 (np_linspace 0 2 41).

(** [METRIC[0]]. *)
Definition METRIC_0 : result string :=
  match METRIC with
  | m :: _ => inr m
  | [] => inl (IndexError "list index out of range")
  end.

Inductive event : Type :=
  | EvLoad (path : string)
  | EvConn (w : ndarray)
  | EvRandomize (swaps : nat)
  | EvScaleAndNormalize
  | EvGetNodes (node_set : string)
  | EvSelectModel (y : ndarray)
  | EvTrainTestSplit (x y : ndarray)
  | EvPrintAlpha (alpha : float)
  | EvSimulate (w ext_input w_in : ndarray) (output_nodes : list Z)
  | EvRunTask (X y : ndarray * ndarray)
  | EvToCsv (path : string)
  | EvPrint (s : string)
  | EvPool (processes : nat)
  | EvApplyAsync (p : job)
  | EvGet (i : nat)
  | EvPoolClose
  | EvPerfCounter (t : float)
  | EvPrintElapsed (t1 t0 : float).

(** The state of one process: its random state and its log, and the
    output files, which all processes share. *)
Record state : Type := mk_state {
  rng : rng_state;
  fs : gmap string (frame float);
  log : list event
}.

Local Abbreviation P := (M state).

Definition emit (ev : event) : P unit :=
  modifyM (λ σ, mk_state (rng σ) (fs σ) (log σ ++ [ev])).

(** A call into a collaborator: logged, then its result. *)
Definition call {A} (ev : event) (r : result A) : P A :=
  emit ev;; lift_result r.

Definition randomize (swaps : nat) (c : conn) : P conn :=
  emit (EvRandomize swaps);;
  σ ← getM;
  let '(r, g) := conn_randomize swaps c (rng σ) in
  modifyM (λ σ, mk_state g (fs σ) (log σ));;
  lift_result r.

(** [df.to_csv(path, index=False)]. *)
Definition to_csv (df : frame float) (path : string) : P unit :=
  modifyM (λ σ, mk_state (rng σ) (<[path := df]> (fs σ))
                         (log σ ++ [EvToCsv path])).

(** The bit pattern of the float64 [1.0]. *)
Definition float64_one : Z := 0x3FF0000000000000.

(** [w_in = np.zeros((1, n)); w_in[:, input_nodes] = np.eye(1)]: a row of
    zeros with a one at every input node; an index counts from the end
    when negative and must lie in [-n, n). *)
Definition make_w_in (n : nat) (input_nodes : list Z) : result ndarray :=
  match list_find (λ i : Z, ¬ (- Z.of_nat n ≤ i < Z.of_nat n)%Z) input_nodes with
  | Some _ => inl (IndexError "index is out of bounds for axis 1")
  | None =>
      inr {| dtype := np_float64; shape := [1; n];
             data := foldl (λ row (i : Z),
                              <[Z.to_nat (i `mod` Z.of_nat n) := float64_one]> row)
                           (replicate n 0%Z) input_nodes |}
  end.

(** The body of [for alpha in ALPHAS], over the objects it updates: the
    reservoir, the readout module and the list [df_alpha]. *)
Fixpoint sweep (alphas : list float) (c : conn) (w_in : ndarray)
    (output_nodes : list Z) (x_train x_test y_train y_test : ndarray)
    (esn : ESN) (readout_module : readout) (df_alpha : list (frame float))
  : P (list (frame float)) :=
  match alphas with
  | [] => mret df_alpha
  | alpha :: rest =>
      emit (EvPrintAlpha alpha);;
      let esn := mk_ESN (np_mul alpha (conn_w c)) (activation_function esn) in
      rs_train ← call (EvSimulate (esn_w esn) x_train w_in output_nodes)
                      (esn_simulate esn x_train w_in output_nodes);
      rs_test ← call (EvSimulate (esn_w esn) x_test w_in output_nodes)
                     (esn_simulate esn x_test w_in output_nodes);
      '(df_res, readout_module) ←
        call (EvRunTask (rs_train, rs_test) (y_train, y_test))
             (readout_run_task readout_module (rs_train, rs_test)
                (y_train, y_test) METRIC RSN_MAPPING metric_kwargs);
      let df_res := frame_set_column df_res "alpha"
                      (CellFloat (np_round alpha 3)) in
      sweep rest c w_in output_nodes x_train x_test y_train y_test
            esn readout_module (df_alpha ++ [df_res])
  end.

(** The name in [f'{filename}_scores.csv']; [None] prints as its name. *)
Definition scores_path (filename : option string) : string :=
  os_path_join OUTPUT_DIR (default "None" filename +:+ "_scores.csv").

Definition run_workflow (w x y : ndarray) (rewire : bool)
    (filename : option string) : P unit :=
  c ← call (EvConn w) (Conn w);
  c ← (if rewire then randomize 10 c else mret c);
  c ← call EvScaleAndNormalize (conn_scale_and_normalize c);
  input_nodes ← call (EvGetNodes "subctx") (conn_get_nodes c "subctx");
  output_nodes ← call (EvGetNodes "ctx") (conn_get_nodes c "ctx");
  w_in ← lift_result (make_w_in (conn_n_nodes c) input_nodes);
  let esn := mk_ESN (conn_w c) "tanh" in
  est ← call (EvSelectModel y) (readout_select_model y);
  let readout_module := Readout est in
  '(x_train, x_test, y_train, y_test) ←
    call (EvTrainTestSplit x y) (readout_train_test_split x y);
  df_alpha ← sweep ALPHAS c w_in output_nodes x_train x_test y_train y_test
                   esn readout_module [];
  df_alpha ← lift_result (pd_concat df_alpha);
  metric0 ← lift_result METRIC_0;
  df_alpha ← lift_result
    (frame_select df_alpha ["alpha"; "module"; "n_nodes"; metric0]);
  to_csv df_alpha (scores_path filename).

(** *** The worker pool *)

(** What the run does not fix: the order in which the submitted jobs
    finish, the random state each one starts from, and what the clock
    reads each time it is read. *)
Record schedule : Type := mk_schedule {
  completion_order : list nat;
  worker_rng : nat → rng_state;
  perf_counter : nat → float
}.

(** One job in a worker process: [run_workflow( **p)], with [rewire] at
    its default.  The worker has its own random state and log; the
    files it writes are those of the coordinator. *)
Definition run_job (sch : schedule) (i : nat) (p : job)
    (files : gmap string (frame float))
  : result unit * gmap string (frame float) :=
  let '(r, σ) := run_workflow (job_w p) (job_x p) (job_y p) true
                   (Some (job_filename p))
                   (mk_state (worker_rng sch i) files []) in
  (r, fs σ).

(** The jobs run to their end in the order of completion; the outcome
    of each is kept for its [get]. *)
Fixpoint run_jobs (sch : schedule) (params : list job) (order : list nat)
    (files : gmap string (frame float))
  : list (nat * result unit) * gmap string (frame float) :=
  match order with
  | [] => ([], files)
  | i :: rest =>
      match params !! i with
      | None => run_jobs sch params rest files
      | Some p =>
          let '(r, files) := run_job sch i p files in
          let '(outs, files) := run_jobs sch params rest files in
          ((i, r) :: outs, files)
      end
  end.

(** [r.get()]: the result of job [i], or the exception it ended with. *)
Definition get (outs : list (nat * result unit)) (i : nat) : P unit :=
  emit (EvGet i);;
  match list_find (λ o, o.1 = i) outs with
  | Some (_, (_, r)) => lift_result r
  | None => raise (Raised "multiprocessing" "job never finished")
  end.

Fixpoint get_all (outs : list (nat * result unit)) (ids : list nat) : P unit :=
  match ids with
  | [] => mret ()
  | i :: rest => get outs i;; get_all outs rest
  end.

Fixpoint submit_all (params : list job) : P unit :=
  match params with
  | [] => mret ()
  | p :: rest => emit (EvApplyAsync p);; submit_all rest
  end.

(** *** [run_experiment] *)

Definition null_params (connectome : string) (w x y : ndarray) (n : nat)
  : list job :=
  (λ i, mk_job w x y (connectome +:+ "_null_" +:+ pretty i)) <$> seq 0 n.

(** The line feed that starts two of the printed lines. *)
Definition LF : string := String (Ascii.ascii_of_nat 10) "".

(** [time.perf_counter()], read for the [n]-th time. *)
Definition read_perf_counter (sch : schedule) (n : nat) : P float :=
  emit (EvPerfCounter (perf_counter sch n));;
  mret (perf_counter sch n).

(** [EvPrintElapsed t1 t0] is
    [print(time.perf_counter()-t0, "seconds process time")], with [t1]
    the reading taken for it. *)
Definition run_experiment (sch : schedule) (connectome : string)
    (x y : ndarray) : P unit :=
  let path := os_path_join DATA_DIR (connectome +:+ ".npy") in
  w ← call (EvLoad path) (np_load path);
  run_workflow w x y false (Some (connectome +:+ "_empirical"));;
  let params := null_params connectome w x y 500 in
  emit (EvPrint (LF +:+ "INITIATING PROCESSING TIME"));;
  t0 ← read_perf_counter sch 0;
  emit (EvPool N_PROCESS);;
  submit_all params;;
  σ ← getM;
  let '(outs, files) := run_jobs sch params (completion_order sch) (fs σ) in
  modifyM (λ σ, mk_state (rng σ) files (log σ));;
  get_all outs (seq 0 (length params));;
  emit EvPoolClose;;
  emit (EvPrint (LF +:+ "TOTAL PROCESSING TIME"));;
  t1 ← read_perf_counter sch 1;
  emit (EvPrintElapsed t1 t0);;
  emit (EvPrint "END").

End example1.

End Example1.

(** ** Reading the log and the output of the example script *)

Module Example1Spec.
Import Example1.
Section spec.
Context `{!Conn2res}.
Context (OUTPUT_DIR : string).

(** What one pass of the sweep logs: [W] is the weight matrix of the
    connectome, [p] the two simulated state arrays and the frame the
    readout returned in that pass. *)
Definition pass_events (W w_in : ndarray) (output_nodes : list Z)
    (x_train x_test y_train y_test : ndarray)
    (alpha : float) (p : ndarray * ndarray * frame float) : list event :=
  [EvPrintAlpha alpha;
   EvSimulate (np_mul alpha W) x_train w_in output_nodes;
   EvSimulate (np_mul alpha W) x_test w_in output_nodes;
   EvRunTask p.1 (y_train, y_test)].

(** The frame of a pass with its [alpha] column set. *)
(** The frame of [p] is what the readout returned for the states of [p]. *)
Definition from_readout (RSN_MAPPING y_train y_test : ndarray)
    (p : ndarray * ndarray * frame float) : Prop :=
  ∃ r r', readout_run_task r p.1 (y_train, y_test) METRIC RSN_MAPPING
            metric_kwargs = inr (p.2, r').

Definition tag_alpha (alpha : float) (p : ndarray * ndarray * frame float)
  : frame float :=
  frame_set_column p.2 "alpha" (CellFloat (np_round alpha 3)).

(** The weight matrices the simulator was run with, in call order. *)
Definition sim_weights (evs : list event) : list ndarray :=
  omap (λ ev, match ev with
              | EvSimulate W _ _ _ => Some W
              | _ => None
              end) evs.

(** What [run_workflow] logs before it splits the data. *)
Definition setup_events (w y : ndarray) (rewire : bool) : list event :=
  EvConn w :: (if rewire then [EvRandomize 10] else []) ++
  [EvScaleAndNormalize; EvGetNodes "subctx"; EvGetNodes "ctx"; EvSelectModel y].

(** The output identifiers of one [run_experiment] call, and the files
    they name. *)
Definition output_ids (connectome : string) (n : nat) : list string :=
  (connectome +:+ "_empirical")
    :: ((λ i : nat, connectome +:+ "_null_" +:+ pretty i) <$> seq 0 n).

Definition output_paths (connectome : string) (n : nat) : list string :=
  (λ id, scores_path OUTPUT_DIR (Some id)) <$> output_ids connectome n.

End spec.
End Example1Spec.

(** ** A small instance of the collaborators

    Used to run the definitions on concrete inputs. *)
Module Stub.

(** An estimator that only remembers how many times it was fitted. *)
Definition scalar (v : Z) : ndarray := mk_ndarray np_float64 [] [v].

#[global] Instance sklearn : Sklearn nat := {|
  Ridge := λ _, inr 0;
  RidgeClassifier := λ _, inr 0;
  est_fit := λ e _ _ _, inr (S e);
  est_predict := λ e x,
    match e with
    | 0 => inl (Raised "sklearn" "NotFittedError")
    | S _ => inr (mk_ndarray np_float64 (take 1 (shape x)) [])
    end;
  est_score := λ e _ _ _,
    match e with
    | 0 => inl (Raised "sklearn" "NotFittedError")
    | S _ => inr (scalar 1)
    end
|}.

#[global] Instance perf : Performance := {|
  performance := λ name,
    if decide (name = "r2_score") then Some (λ _ _ _ _, inr (scalar 2))
    else if decide (name = "corrcoef") then Some (λ _ _ _ _, inr (scalar 3))
    else None
|}.

#[global] Instance pandas : Pandas (list (string * ndarray)) := {|
  pd_DataFrame := λ d, inr d
|}.

Definition σ0 : Task.state nat := Task.mk_state [] [].
Definition no_kwargs : Task.kwargs := Task.mk_kwargs None None None None.

Definition states (sh : list nat) : ndarray := mk_ndarray np_float64 sh [].
Definition labels (d : np_dtype) (sh : list nat) (v : list Z) : ndarray :=
  mk_ndarray d sh v.

End Stub.


(** Inputs for running [task.py]. *)
Module TaskExamples.
Import Task.

Definition rs : ndarray * ndarray := (Stub.states [4; 2], Stub.states [2; 2]).
Definition tg_float : ndarray * ndarray :=
  (Stub.labels np_float64 [4; 1] [], Stub.labels np_float64 [2; 1] []).
Definition y_bool : ndarray := Stub.labels np_bool [4] [1; 0; 1; 1]%Z.
Definition run (metric : metric_arg)
  : result (list (string * ndarray) * loc) * state nat :=
  run_task rs tg_float metric Stub.no_kwargs Stub.σ0.

End TaskExamples.

(** A small instance of the collaborators of the example script: floats
    are counted in thousandths, a connectome is its weight array, the
    simulator returns an array of the right shape, and the readout
    returns one row per distinct label of the module mapping. *)
Module StubLab.

Definition module_rows (rsn : ndarray) : list (list (string * cell Z)) :=
  (λ lbl, [("module", CellInt lbl);
           ("n_nodes", CellInt (Z.of_nat (length (filter (λ v, v = lbl) (data rsn)))));
           ("corrcoef", CellFloat 0%Z)])
    <$> remove_dups (data rsn).

#[global] Instance lab : Conn2res := {|
  float := Z;
  np_linspace := λ a b n,
    (λ i, (1000 * a + 1000 * (b - a) * Z.of_nat i / (Z.of_nat n - 1))%Z)
      <$> seq 0 n;
  np_round := λ v _, v;
  np_mul := λ a w,
    mk_ndarray (dtype w) (shape w) ((λ v, a * v / 1000)%Z <$> data w);
  np_load := λ path, inr (mk_ndarray np_float64 [2; 2] [0; 1000; 1000; 0]%Z);
  rng_state := nat;
  conn := ndarray;
  Conn := λ w, inr w;
  conn_w := λ c, c;
  conn_n_nodes := λ c, default 0 (head (shape c));
  conn_randomize := λ swaps c g,
    (inr (mk_ndarray (dtype c) (shape c) (reverse (data c))), S g);
  conn_scale_and_normalize := λ c, inr c;
  conn_get_nodes := λ c node_set,
    if decide (node_set = "subctx") then inr [0%Z] else inr [1%Z];
  esn_simulate := λ esn ext_input w_in output_nodes,
    inr (mk_ndarray np_float64
           (take 1 (shape ext_input) ++ [length output_nodes]) []);
  estimator := unit;
  readout := nat;
  readout_select_model := λ y, inr ();
  Readout := λ _, 0;
  readout_train_test_split := λ x y, inr (x, x, y, y);
  readout_run_task := λ r X y metric rsn kw,
    inr (mk_frame ["module"; "n_nodes"; "corrcoef"] (module_rows rsn), S r)
|}.

Definition x : ndarray := mk_ndarray np_float64 [10; 1] [].
Definition y : ndarray := mk_ndarray np_float64 [10; 3] [].
Definition rsn_two : ndarray := mk_ndarray np_int64 [2] [1; 2]%Z.
Definition w : ndarray := mk_ndarray np_float64 [2; 2] [0; 1000; 1000; 0]%Z.
Definition σ0 : Example1.state := Example1.mk_state 0 ∅ [].

(** The jobs finish in the reverse of the order of submission. *)
Definition sch : Example1.schedule :=
  Example1.mk_schedule (reverse (seq 0 500)) (λ i, i)
    (λ n, (1000 * Z.of_nat n)%Z).

End StubLab.

(** More inputs for running [task.py]: a store that already holds two
    estimators, keyword arguments that pass the second one as [model], and
    an estimator class whose [fit] checks that states and targets have the
    same number of samples. *)
Module TaskExamples2.
Import Task.

Definition σ2 : state nat := mk_state [5; 7] [].
Definition with_model : kwargs := mk_kwargs (Some 1) None None None.
Definition weight_None : kwargs := mk_kwargs None None None (Some SwNone).

Definition sklearn_strict : Sklearn nat := {|
  Ridge := λ _, inr 0;
  RidgeClassifier := λ _, inr 0;
  est_fit := λ e x y _,
    if decide (head (shape x) = head (shape y)) then inr (S e)
    else inl (ValueError "inconsistent numbers of samples");
  est_predict := λ e x, inr (mk_ndarray np_float64 (take 1 (shape x)) []);
  est_score := λ e _ _ _, inr (Stub.scalar 1)
|}.

Definition short_target : ndarray := Stub.labels np_float64 [3] [].

End TaskExamples2.

(** ** Relations kept along a computation

    [steps R c]: whatever its outcome, [c] takes a state to an
    [R]-related one; [fsteps R c]: so does every run of [c] that ends in
    an exception. *)
Definition steps {S A} (R : relation S) (c : M S A) : Prop :=
  ∀ σ, R σ (c σ).2.

Definition fsteps {S A} (R : relation S) (c : M S A) : Prop :=
  ∀ σ e σ', c σ = (inl e, σ') → R σ σ'.

Module Example1Log.
Section log.
Context `{!Conn2res}.
Import Example1.

(** The events one [run_workflow] call can log. *)
Definition workflow_event (rewire : bool) (ev : event) : Prop :=
  match ev with
  | EvConn _ | EvScaleAndNormalize | EvGetNodes _ | EvSelectModel _
  | EvTrainTestSplit _ _ | EvPrintAlpha _ | EvSimulate _ _ _ _
  | EvRunTask _ _ | EvToCsv _ => True
  | EvRandomize swaps => rewire = true ∧ swaps = 10
  | _ => False
  end.

(** The files are those of before. *)
Definition same_files : relation state := λ σ σ', fs σ' = fs σ.

(** The log has grown by events that satisfy [φ], and the random state
    is the one of before when [keep_rng] is set. *)
Definition logged (keep_rng : bool) (φ : event → Prop) : relation state :=
  λ σ σ', (keep_rng = true → rng σ' = rng σ) ∧
          ∃ evs, log σ' = log σ ++ evs ∧ Forall φ evs.

End log.
End Example1Log.

(** A second instance of the collaborators, in which some calls fail:
    the file of the connectome [broken] holds a 0-d array, which has no
    node to take as input, and rewiring always raises. *)
Module StubLab2.

Definition lab2 : Conn2res := {|
  float := Z;
  np_linspace := @np_linspace StubLab.lab;
  np_round := @np_round StubLab.lab;
  np_mul := @np_mul StubLab.lab;
  np_load := λ path,
    if decide (path = "data/broken.npy")
    then inr (mk_ndarray np_float64 [] [0%Z])
    else inr StubLab.w;
  rng_state := nat;
  conn := ndarray;
  Conn := λ w, inr w;
  conn_w := λ c, c;
  conn_n_nodes := λ c, default 0 (head (shape c));
  conn_randomize := λ swaps c g,
    (inl (ValueError "cannot rewire"), S g);
  conn_scale_and_normalize := λ c, inr c;
  conn_get_nodes := @conn_get_nodes StubLab.lab;
  esn_simulate := @esn_simulate StubLab.lab;
  estimator := unit;
  readout := nat;
  readout_select_model := λ y, inr ();
  Readout := λ _, 0;
  readout_train_test_split := λ x y, inr (x, x, y, y);
  readout_run_task := @readout_run_task StubLab.lab
|}.

Definition σ0 : @Example1.state lab2 := @Example1.mk_state lab2 0 ∅ [].

Definition sch2 : @Example1.schedule lab2 :=
  @Example1.mk_schedule lab2 (seq 0 500) (λ i, i) (λ n, 0%Z).

End StubLab2.

(** * Properties *)

(** ** The monad *)

Section monad_facts.
Context {S A B : Type}.
Implicit Types (c : M S A) (f : A → M S B).

Lemma bind_inr c f σ a σ1 :
  c σ = (inr a, σ1) → (c ≫= f) σ = f a σ1.
Proof. intros Hc. unfold mbind, M_bind, bindM. by rewrite Hc. Qed.

Lemma bind_inl c f σ e σ1 :
  c σ = (inl e, σ1) → (c ≫= f) σ = (inl e, σ1).
Proof. intros Hc. unfold mbind, M_bind, bindM. by rewrite Hc. Qed.

Lemma bind_inv c f σ r σ' :
  (c ≫= f) σ = (r, σ') →
  (∃ a σ1, c σ = (inr a, σ1) ∧ f a σ1 = (r, σ')) ∨
  (∃ e, c σ = (inl e, σ') ∧ r = inl e).
Proof.
  unfold mbind, M_bind, bindM. destruct (c σ) as [[e|a] σ1]; intros Hr.
  - right. exists e. by inversion Hr.
  - left. by exists a, σ1.
Qed.

Lemma bind_inv_inr c f σ b σ' :
  (c ≫= f) σ = (inr b, σ') →
  ∃ a σ1, c σ = (inr a, σ1) ∧ f a σ1 = (inr b, σ').
Proof.
  intros [(a & σ1 & Hc & Hf)|(e & _ & He)]%bind_inv; [by exists a, σ1 | done].
Qed.

End monad_facts.

(** Case analysis on the innermost scrutinee of a [match] in [H]. *)
Ltac hyp_case H :=
  match type of H with
  | context [match ?x with _ => _ end] =>
      lazymatch x with
      | context [match _ with _ => _ end] => fail
      | _ => destruct x eqn:?; simplify_eq/=
      end
  end.

Ltac munfold :=
  unfold mbind, M_bind, bindM, mret, M_ret, retM, raise, lift_result, getM,
    modifyM in *.

(** ** [task.py] *)

Section task_facts.
Context {E F : Type} {sk : Sklearn E} {pf : Performance} {pd : Pandas F}.
Import Task.
Implicit Types (σ : state E) (kw : kwargs) (s : strategy) (l : loc).

(** What a call of a training function that returns has done: it
    resolved the model (the caller's object, or a new default one), fitted
    it on the training pair, and computed the metric in one of two ways. *)
Lemma strategy_success s x_train x_test y_train y_test metric kw σ v l σ' :
  call_strategy (Some s) (x_train, x_test) (y_train, y_test) metric kw σ
    = (inr (v, l), σ') →
  ∃ w_train w_test e0 e1 pre st1 scoring,
    sample_weights kw = Some (w_train, w_test) ∧
    ((kw_model kw = Some l ∧ store σ !! l = Some e0 ∧ pre = [] ∧ st1 = store σ) ∨
     (kw_model kw = None ∧ l = length (store σ) ∧
      construct (default_class s) (default default_model_kws (kw_model_kws kw))
        = inr e0 ∧
      pre = [EvNew l (default_class s)
               (default default_model_kws (kw_model_kws kw))] ∧
      st1 = store σ ++ [e0])) ∧
    est_fit e0 x_train y_train w_train = inr e1 ∧
    store σ' = <[l := e1]> st1 ∧
    log σ' = log σ ++ pre ++ EvFit l x_train y_train w_train :: scoring ∧
    (if decide (metric = "score") then
       scoring = [EvScore l x_test y_test w_test] ∧
       est_score e1 x_test y_test w_test = inr v
     else
       ∃ func y_pred,
         performance metric = Some func ∧
         est_predict e1 x_test = inr y_pred ∧
         scoring = [EvGetattr metric; EvPredict l x_test;
                    EvMetric metric y_test y_pred w_test
                      (default (default_metric_kws s) (kw_metric_kws kw))] ∧
         func y_test y_pred w_test
           (default (default_metric_kws s) (kw_metric_kws kw)) = inr v).
Proof.
  destruct s; simpl; unfold regression, classification, pop_sample_weight,
    new_estimator, model_fit, model_score, getattr_performance, model_predict,
    call_metric, deref, emit, sample_weights, construct; munfold; simpl.
  all: intros H0.
  all: repeat hyp_case H0.
  all: repeat match goal with
       | H : <[_:=_]> _ !! _ = Some _ |- _ =>
           apply list_lookup_insert_Some in H as [(_ & -> & _)|[? _]]; [|done]
       | H : (_ ++ [_]) !! length _ = Some _ |- _ =>
           rewrite -> list_lookup_middle in H by done; simplify_eq
       end.
  all: eexists _, _, _, _, _, _, _.
  all: (split; [done|]).
  all: (split; [first [by left | by right]|]).
  all: (split; [done|]); (split; [done|]).
  all: (split; [by rewrite <- ?app_assoc|]).
  all: try done.
  all: repeat match goal with
       | Hd : decide _ = _ |- _ => rewrite -> Hd; clear Hd
       end.
  all: by eexists _, _.
Qed.

(** A call that returns looked up only names the module knows. *)
Lemma strategy_success_log s x y metric kw σ v l σ' :
  call_strategy (Some s) x y metric kw σ = (inr (v, l), σ') →
  ∃ evs w_train w_test,
    log σ' = log σ ++ evs ∧
    sample_weights kw = Some (w_train, w_test) ∧
    filter is_fit evs = [EvFit l x.1 y.1 w_train] ∧
    (∀ m, EvGetattr m ∈ evs → is_Some (performance m)) ∧
    (metric = "score" ∨ is_Some (performance metric)) ∧
    match kw_model kw with
    | Some l0 => l = l0 ∧ length (store σ') = length (store σ)
    | None => l = length (store σ) ∧ length (store σ') = S (length (store σ))
    end.
Proof.
  destruct x as [x_train x_test], y as [y_train y_test].
  intros (w_train & w_test & e0 & e1 & pre & st1 & scoring & Hw & Hm & _ & Hst
          & Hlog & Hsc)%strategy_success.
  exists (pre ++ EvFit l x_train y_train w_train :: scoring), w_train, w_test.
  assert (filter is_fit pre = [] ∧ ∀ m, EvGetattr m ∉ pre) as [Hpre1 Hpre2].
  { destruct Hm as [(_ & _ & -> & _)|(_ & _ & _ & -> & _)].
    - split; [done|]. intros m. apply not_elem_of_nil.
    - split; [done|]. intros m [=]%list_elem_of_singleton. }
  assert (filter is_fit scoring = [] ∧
          (∀ m, EvGetattr m ∈ scoring → is_Some (performance m)) ∧
          (metric = "score" ∨ is_Some (performance metric)))
    as (Hsc1 & Hsc2 & Hsc3).
  { destruct (decide (metric = "score")) as [->|Hne].
    - destruct Hsc as [-> _]. split; [done|]. split; [|by left].
      intros m [=]%list_elem_of_singleton.
    - destruct Hsc as (func & y_pred & Hf & _ & -> & _).
      split; [done|]. split; [|by right; eexists].
      intros m Hin. repeat (apply elem_of_cons in Hin as [Hin|Hin]);
        simplify_eq; [by eexists|]. by apply elem_of_nil in Hin. }
  split_and!; [done|done| | |done|].
  - rewrite filter_app filter_cons_True // Hpre1 Hsc1 //.
  - intros m [Hin|Hin]%elem_of_app; [by apply Hpre2 in Hin|].
    apply elem_of_cons in Hin as [[=]|Hin]. by apply Hsc2.
  - rewrite Hst length_insert.
    destruct Hm as [(-> & _ & _ & ->)|(-> & -> & _ & _ & ->)]; [done|].
    split; [done|]. rewrite length_app /=. lia.
Qed.

(** A call that raises: if it got as far as looking up a name the module
    does not know, that lookup is the last thing it did and the error is
    the [AttributeError] for that name. *)
Lemma strategy_failure func x y metric kw σ e σ' :
  call_strategy func x y metric kw σ = (inl e, σ') →
  ∃ evs,
    log σ' = log σ ++ evs ∧
    ∀ m, performance m = None → EvGetattr m ∈ evs →
         e = AttributeError "performance" m ∧ last evs = Some (EvGetattr m).
Proof.
  destruct x as [x_train x_test], y as [y_train y_test].
  destruct func as [[]|]; simpl;
    unfold regression, classification, pop_sample_weight,
    new_estimator, model_fit, model_score, getattr_performance, model_predict,
    call_metric, deref, emit; munfold; simpl.
  all: intros H0.
  all: repeat hyp_case H0.
  all: try simplify_eq.
  all: try (exists []; split; [by rewrite app_nil_r|];
            intros m _ Hin; by apply elem_of_nil in Hin).
  all: eexists; (split; [by rewrite <- ?app_assoc|]); simpl; intros m' Hm Hin.
  all: repeat (apply elem_of_cons in Hin as [Hin|Hin]; simplify_eq).
  all: try (by apply elem_of_nil in Hin).
  all: first [congruence | done].
Qed.

(** [check_xy_dims] always returns and leaves the state alone. *)
Lemma check_xy_dims_total {S} (x y : ndarray * ndarray) (σ : S) :
  ∃ x_train x_test,
    check_xy_dims x y σ = (inr (x_train, x_test, squeeze y.1, squeeze y.2), σ).
Proof.
  destruct x as [x_train x_test], y as [y_train y_test].
  unfold check_xy_dims, newaxis1, ndim. munfold.
  destruct (bool_decide (length (shape x_train) = 1)) eqn:H1;
    destruct (bool_decide (length (shape x_test) = 1)) eqn:H2; simpl.
  - apply bool_decide_eq_true in H1, H2.
    destruct (shape x_train) as [|n1 r1]; [done|].
    destruct (shape x_test) as [|n2 r2]; [done|]. by eexists _, _.
  - destruct (_ && _); by eexists _, _.
  - destruct (_ && _); by eexists _, _.
  - destruct (_ && _); by eexists _, _.
Qed.

Lemma loop_none x y kw m ms acc mdl σ :
  run_task_loop None x y kw (m :: ms) acc mdl σ
    = (inl (TypeError "'NoneType' object is not callable"), σ).
Proof. done. Qed.

Lemma loop_success_log s x y kw ms acc mdl σ acc' mdl' σ' :
  run_task_loop (Some s) x y kw ms acc mdl σ = (inr (acc', mdl'), σ') →
  ∃ evs,
    log σ' = log σ ++ evs ∧
    filter is_fit evs
      = (λ l, EvFit l x.1 y.1 (train_weight kw))
          <$> fit_locs kw (length (store σ)) (length ms) ∧
    (∀ m, EvGetattr m ∈ evs → is_Some (performance m)) ∧
    (∀ m, m ∈ ms → m = "score" ∨ is_Some (performance m)) ∧
    (ms ≠ [] ∨ is_Some mdl → is_Some mdl').
Proof.
  revert acc mdl σ. induction ms as [|m ms IH]; intros acc mdl σ Hrun.
  - simpl in Hrun. munfold. simplify_eq. exists []. rewrite app_nil_r.
    split_and!; [done| |by intros ? ?%elem_of_nil|by intros ? ?%elem_of_nil|].
    + unfold fit_locs. by destruct (kw_model kw).
    + by intros [?|?].
  - simpl in Hrun.
    apply bind_inv_inr in Hrun as ([v l] & σ1 & Hcall & Hrun).
    apply bind_inv_inr in Hrun as ([] & σ2 & Hemit & Hrun).
    unfold emit in Hemit. munfold. simplify_eq.
    apply strategy_success_log in Hcall
      as (evs1 & w1 & w2 & Hlog1 & Hw & Hfit1 & Hget1 & Hm & Hst).
    apply IH in Hrun as (evs2 & Hlog2 & Hfit2 & Hget2 & Hms & Hmdl).
    simpl in Hlog2, Hfit2.
    exists (evs1 ++ EvPrint m v :: evs2). split_and!.
    + rewrite Hlog2 Hlog1 -!app_assoc //.
    + rewrite filter_app. rewrite -> filter_cons_False by (by intros []).
      rewrite Hfit1 Hfit2 /train_weight Hw /fit_locs /=.
      destruct (kw_model kw) as [l0|]; destruct Hst as [-> Hlen].
      all: by rewrite ?Hlen.
    + intros m' [Hin|Hin]%elem_of_app; [by apply Hget1|].
      apply elem_of_cons in Hin as [[=]|Hin]. by apply Hget2.
    + intros m' [->|Hin]%elem_of_cons; [done|by apply Hms].
    + intros _. apply Hmdl. by right.
Qed.

Lemma loop_failure_log func x y kw ms acc mdl σ e σ' :
  run_task_loop func x y kw ms acc mdl σ = (inl e, σ') →
  ∃ evs,
    log σ' = log σ ++ evs ∧
    ∀ m, performance m = None → EvGetattr m ∈ evs →
         e = AttributeError "performance" m ∧ last evs = Some (EvGetattr m).
Proof.
  revert acc mdl σ. induction ms as [|m ms IH]; intros acc mdl σ Hrun.
  - simpl in Hrun. munfold. simplify_eq.
  - simpl in Hrun.
    apply bind_inv in Hrun as [([v l] & σ1 & Hcall & Hrun)|(e' & Hcall & [= <-])];
      [|by eapply strategy_failure].
    apply bind_inv in Hrun as [([] & σ2 & Hemit & Hrun)|(e' & Hemit & _)];
      [|done].
    unfold emit in Hemit. munfold. simplify_eq.
    destruct func as [s|]; [|done].
    apply strategy_success_log in Hcall
      as (evs1 & w1 & w2 & Hlog1 & _ & _ & Hget1 & _).
    apply IH in Hrun as (evs2 & Hlog2 & Hun). simpl in Hlog2.
    exists (evs1 ++ EvPrint m v :: evs2). split.
    + rewrite Hlog2 Hlog1 -!app_assoc //.
    + intros m' Hm' [Hin|Hin]%elem_of_app.
      { apply Hget1 in Hin as [f Hf]. congruence. }
      apply elem_of_cons in Hin as [[=]|Hin].
      destruct (Hun m' Hm' Hin) as [-> Hlast]. split; [done|].
      rewrite last_app last_cons Hlast //.
Qed.


(** The primitive steps, as equations. *)
Lemma pop_sample_weight_eq kw σ p :
  sample_weights kw = Some p → pop_sample_weight kw σ = (inr p, σ).
Proof.
  unfold sample_weights, pop_sample_weight.
  destruct (kw_sample_weight kw) as [[|a b]|]; by intros [= <-].
Qed.

Lemma new_estimator_eq c k σ e :
  construct c k = inr e →
  new_estimator c k σ
    = (inr (length (store σ)),
       mk_state (store σ ++ [e]) (log σ ++ [EvNew (length (store σ)) c k])).
Proof.
  unfold construct, new_estimator. intros Hc. munfold. by rewrite Hc.
Qed.

Lemma model_fit_eq l x y w σ e0 e1 :
  store σ !! l = Some e0 → est_fit e0 x y w = inr e1 →
  model_fit l x y w σ
    = (inr (), mk_state (<[l:=e1]> (store σ)) (log σ ++ [EvFit l x y w])).
Proof.
  intros Hl Hfit. unfold model_fit, deref, emit. munfold.
  by rewrite /= Hl /= Hfit.
Qed.

Lemma model_score_eq l x y w σ e :
  store σ !! l = Some e →
  model_score l x y w σ
    = (est_score e x y w, mk_state (store σ) (log σ ++ [EvScore l x y w])).
Proof. intros Hl. unfold model_score, deref, emit. munfold. by rewrite /= Hl. Qed.

Lemma model_predict_eq l x σ e :
  store σ !! l = Some e →
  model_predict l x σ
    = (est_predict e x, mk_state (store σ) (log σ ++ [EvPredict l x])).
Proof. intros Hl. unfold model_predict, deref, emit. munfold. by rewrite /= Hl. Qed.

Lemma getattr_performance_eq m σ :
  getattr_performance m σ
    = (match performance m with
       | Some func => inr func
       | None => inl (AttributeError "performance" m)
       end,
       mk_state (store σ) (log σ ++ [EvGetattr m])).
Proof.
  unfold getattr_performance, emit. munfold. simpl.
  by destruct (performance m).
Qed.

Lemma call_metric_eq m func y_true y_pred w k σ :
  "sample_weight" ∉ k.*1 →
  call_metric m func y_true y_pred w k σ
    = (func y_true y_pred w k,
       mk_state (store σ) (log σ ++ [EvMetric m y_true y_pred w k])).
Proof.
  intros Hk. unfold call_metric, emit.
  rewrite bool_decide_eq_false_2 //.
Qed.

(** A training call whose sample weights unpack, whose model is there
    and whose fit succeeds: the model holds the fitted estimator, and the
    scoring step runs on it. *)
Lemma strategy_dispatch s (x_train x_test y_train y_test : ndarray)
    (metric : string) kw σ w_train w_test l e0 e1 pre st1 :
  sample_weights kw = Some (w_train, w_test) →
  resolved_model s kw σ l e0 pre st1 →
  est_fit e0 x_train y_train w_train = inr e1 →
  let r := call_strategy (Some s) (x_train, x_test) (y_train, y_test)
             metric kw σ in
  let metric_kws := default (default_metric_kws s) (kw_metric_kws kw) in
  let fit := EvFit l x_train y_train w_train in
  store r.2 = <[l := e1]> st1 ∧
  if decide (metric = "score") then
    r.1 = with_model l (est_score e1 x_test y_test w_test) ∧
    log r.2 = log σ ++ pre ++ [fit; EvScore l x_test y_test w_test]
  else
    match performance metric with
    | None =>
        r.1 = inl (AttributeError "performance" metric) ∧
        log r.2 = log σ ++ pre ++ [fit; EvGetattr metric]
    | Some func =>
        match est_predict e1 x_test with
        | inl e =>
            r.1 = inl e ∧
            log r.2 = log σ ++ pre
                        ++ [fit; EvGetattr metric; EvPredict l x_test]
        | inr y_pred =>
            "sample_weight" ∉ metric_kws.*1 →
            r.1 = with_model l (func y_test y_pred w_test metric_kws) ∧
            log r.2 = log σ ++ pre
                        ++ [fit; EvGetattr metric; EvPredict l x_test;
                            EvMetric metric y_test y_pred w_test metric_kws]
        end
    end.
Proof.
  intros Hw Hm Hfit r metric_kws fit.
  assert (Hl : l < length st1 ∧ st1 !! l = Some e0).
  { unfold resolved_model in Hm.
    destruct (kw_model kw) as [l0|]; destruct Hm as (-> & H1 & _ & ->).
    - split; [by eapply lookup_lt_Some|done].
    - split; [rewrite length_app /=; lia|by rewrite list_lookup_middle]. }
  destruct Hl as [Hlt Hlk].
  pose (σ1 := mk_state st1 (log σ ++ pre)).
  pose (σ2 := mk_state (<[l:=e1]> st1) (log σ ++ pre ++ [fit])).
  assert (Hins : store σ2 !! l = Some e1) by by apply list_lookup_insert_eq.
  assert (Hres : (match kw_model kw with
                  | None => new_estimator (default_class s)
                              (default default_model_kws (kw_model_kws kw))
                  | Some l0 => mret l0
                  end) σ = (inr l, σ1)).
  { unfold resolved_model in Hm.
    destruct (kw_model kw) as [l0|]; destruct Hm as (-> & Hc & -> & ->).
    - rewrite /σ1 app_nil_r. by destruct σ.
    - by apply new_estimator_eq. }
  assert (Hfit2 : model_fit l x_train y_train w_train σ1 = (inr (), σ2)).
  { rewrite (model_fit_eq l x_train y_train w_train σ1 e0 e1) //.
    by rewrite /σ2 /= -app_assoc. }
  pose (sc := (if decide (metric = "score") then
                 model_score l x_test y_test w_test
               else
                 func ← getattr_performance metric;
                 y_pred ← model_predict l x_test;
                 call_metric metric func y_test y_pred w_test metric_kws)
              : M (state E) ndarray).
  assert (Hr : r = (with_model l (sc σ2).1, (sc σ2).2)).
  { subst r metric_kws sc.
    destruct s; cbn [call_strategy default_class default_metric_kws] in *;
      unfold regression, classification.
    all: rewrite (bind_inr _ _ _ _ _ (pop_sample_weight_eq kw σ _ Hw)).
    all: cbn beta iota.
    all: rewrite (bind_inr _ _ _ _ _ Hres) (bind_inr _ _ _ _ _ Hfit2).
    all: unfold mbind at 1, M_bind, bindM at 1.
    all: by destruct (_ σ2) as [[?|?] ?]. }
  rewrite Hr. clear Hr r. subst sc. cbn [fst snd].
  destruct (decide (metric = "score")) as [->|Hne].
  - rewrite (model_score_eq l x_test y_test w_test σ2 e1 Hins) /=.
    by rewrite -!app_assoc.
  - unfold mbind, M_bind, bindM. rewrite getattr_performance_eq.
    destruct (performance metric) as [func|]; cbn [fst snd];
      [|by rewrite /= -!app_assoc].
    rewrite (model_predict_eq l x_test _ e1) //.
    destruct (est_predict e1 x_test) as [e|y_pred]; cbn [fst snd];
      [by rewrite /= -!app_assoc|].
    split.
    + unfold call_metric, emit. by case_bool_decide.
    + intros Hkw. rewrite call_metric_eq //=. by rewrite -!app_assoc.
Qed.


End task_facts.

Section task_claims.
Context {E F : Type} {sk : Sklearn E} {pf : Performance} {pd : Pandas F}.
Import Task.
Implicit Types (σ : state E) (kw : kwargs) (s : strategy) (l : loc).

(** C1 (as amended).  What [select_model] returns is decided by the
    dtype of the target alone, whatever the shape of the array and
    whatever (and however many distinct) values it holds: the regression
    function when the dtype is float32 or float64 in native byte order,
    the classification function when it is int32 or int64 in native byte
    order, and [None] for every other dtype (the other floating and
    integer types, the byte-swapped float64 and its like, and the types
    that are neither). *)
Theorem C1_select_model_by_dtype (y : ndarray) :
  select_model y =
    if decide (dtype y = np_float32 ∨ dtype y = np_float64)
    then Some regression_fn
    else if decide (dtype y = np_int32 ∨ dtype y = np_int64)
    then Some classification_fn
    else None.
Proof.
  unfold select_model.
  repeat case_bool_decide; repeat case_decide; try done.
  all: repeat match goal with
       | Hn : _ ∈ _ |- _ => rewrite !elem_of_cons elem_of_nil in Hn
       | Hn : _ ∉ _ |- _ => rewrite !elem_of_cons elem_of_nil in Hn
       end; tauto.
Qed.

(** C3 (as amended).  [check_xy_dims] never raises and touches no state.
    The targets are squeezed.  The states get a trailing axis when both
    are 1-D, are squeezed when both have more than two axes, and in every
    other case, a pair of different dimensionality included, are
    returned as they came. *)
Theorem C3_check_xy_dims_never_fails {S : Type}
    (x_train x_test y_train y_test : ndarray) (σ : S) :
  ∃ x_train' x_test',
    check_xy_dims (x_train, x_test) (y_train, y_test) σ
      = (inr (x_train', x_test', squeeze y_train, squeeze y_test), σ) ∧
    (ndim x_train = 1 ∧ ndim x_test = 1 →
       shape x_train' = shape x_train ++ [1] ∧
       shape x_test' = shape x_test ++ [1]) ∧
    (2 < ndim x_train ∧ 2 < ndim x_test →
       x_train' = squeeze x_train ∧ x_test' = squeeze x_test) ∧
    (¬ (ndim x_train = 1 ∧ ndim x_test = 1) →
     ¬ (2 < ndim x_train ∧ 2 < ndim x_test) →
       x_train' = x_train ∧ x_test' = x_test).
Proof.
  unfold check_xy_dims, newaxis1, ndim. munfold.
  destruct (decide (length (shape x_train) = 1 ∧ length (shape x_test) = 1))
    as [[H1 H2]|Hn1].
  - rewrite (bool_decide_eq_true_2 _ H1) (bool_decide_eq_true_2 _ H2) /=.
    destruct (shape x_train) as [|n1 [|? ?]] eqn:E1; try done.
    destruct (shape x_test) as [|n2 [|? ?]] eqn:E2; try done.
    eexists _, _. split; [done|]. simpl. split_and!; [done|simpl; lia|intros Hn; by destruct Hn].
  - assert (bool_decide (length (shape x_train) = 1)
            && bool_decide (length (shape x_test) = 1) = false) as ->.
    { apply andb_false_iff. rewrite !bool_decide_eq_false.
      destruct (decide (length (shape x_train) = 1));
        [right; intros ?; by apply Hn1|by left]. }
    destruct (decide (2 < length (shape x_train) ∧ 2 < length (shape x_test)))
      as [[H1 H2]|Hn2].
    + rewrite (bool_decide_eq_true_2 _ H1) (bool_decide_eq_true_2 _ H2) /=.
      eexists _, _. split; [done|].
      split_and!; [intros HH; by destruct Hn1|done|intros _ HH; by destruct HH].
    + assert (bool_decide (2 < length (shape x_train))
              && bool_decide (2 < length (shape x_test)) = false) as ->.
      { apply andb_false_iff. rewrite !bool_decide_eq_false.
        destruct (decide (2 < length (shape x_train)));
          [right; intros ?; by apply Hn2|by left]. }
      eexists _, _. split; [done|].
      split_and!; [intros HH; by destruct Hn1|intros HH; by destruct Hn2|done].
Qed.

(** C4 (as amended).  For a target whose dtype is none of float32,
    float64, int32 and int64 (every dtype that is neither floating nor
    integer is such a one) [select_model] raises nothing and returns
    [None].  [run_task] then returns no result: it ends in an exception
    with the state as it found it (nothing is created, fitted or
    logged), and when at least one metric is requested that exception is
    the [TypeError] of calling [None]. *)
Theorem C4_unsupported_dtype_selects_None
    (rs : ndarray * ndarray) (y_train y_test : ndarray)
    (metric : metric_arg) kw σ :
  dtype y_train ∉ [type_dtype np_float32; type_dtype np_float64;
                   type_dtype np_int32; type_dtype np_int64] →
  select_model y_train = None ∧
  ∃ e, run_task (F:=F) rs (y_train, y_test) metric kw σ = (inl e, σ) ∧
       (metric_names metric ≠ [] →
        e = TypeError "'NoneType' object is not callable").
Proof.
  intros Hd.
  assert (∀ y, dtype y = dtype y_train → select_model y = None) as Hsel.
  { intros y Hy. unfold select_model. rewrite Hy.
    rewrite !elem_of_cons elem_of_nil in Hd.
    rewrite !bool_decide_eq_false_2 //; rewrite !elem_of_cons elem_of_nil;
      tauto. }
  split; [by apply Hsel|].
  unfold run_task.
  destruct (check_xy_dims_total rs (y_train, y_test) σ) as (x1 & x2 & Hchk).
  rewrite (bind_inr _ _ _ _ _ Hchk) /=. rewrite (Hsel (squeeze y_train)) //.
  destruct (metric_names metric) as [|m ms].
  - simpl. munfold. destruct (pd_DataFrame []); by eexists.
  - erewrite bind_inl; [|apply loop_none]. by eexists.
Qed.

(** A [run_task] call that returns has fitted once per requested metric:
    the fits are as many as the metric names, all on the same normalized
    training states, training targets and training weights, each on a new
    default estimator when no model was supplied and each on the caller's
    one object when it was. *)
Lemma run_task_fits_per_metric
    (rs tg : ndarray * ndarray) (metric : metric_arg) kw σ (df : F) l σ' :
  run_task rs tg metric kw σ = (inr (df, l), σ') →
  ∃ x_train x_test evs,
    check_xy_dims rs tg σ
      = (inr (x_train, x_test, squeeze tg.1, squeeze tg.2), σ) ∧
    log σ' = log σ ++ evs ∧
    filter is_fit evs
      = (λ l, EvFit l x_train (squeeze tg.1) (train_weight kw))
          <$> fit_locs kw (length (store σ)) (length (metric_names metric)) ∧
    length (filter is_fit evs) = length (metric_names metric) ∧
    metric_names metric ≠ [].
Proof.
  intros Hrun. unfold run_task in Hrun.
  destruct (check_xy_dims_total rs tg σ) as (x1 & x2 & Hchk).
  rewrite (bind_inr _ _ _ _ _ Hchk) /= in Hrun.
  apply bind_inv_inr in Hrun as ([metrics mdl] & σ1 & Hloop & Hrun).
  apply bind_inv_inr in Hrun as (df' & σ2 & Hdf & Hrun).
  unfold lift_result in Hdf. simplify_eq.
  destruct mdl as [l'|]; [|done]. munfold. simplify_eq.
  destruct (select_model (squeeze tg.1)) as [s|] eqn:Hsel.
  - pose proof Hloop as Hloop'.
    apply loop_success_log in Hloop' as (evs & Hlog & Hfit & _ & _ & _).
    simpl in Hfit. exists x1, x2, evs. split_and!; [done|done|done| |].
    + rewrite Hfit length_fmap /fit_locs.
      destruct (kw_model kw); by rewrite ?length_replicate ?length_seq.
    + intros Hnil. rewrite Hnil /= in Hloop. munfold. simplify_eq.
  - destruct (metric_names metric); [|done].
    simpl in Hloop. munfold. simplify_eq.
Qed.


(** C6.  In [regression] and in [classification] alike (the call of
    strategy [s]), once the sample weights are unpacked, the model [l] is
    there and [fit] has returned the fitted estimator [e1], the metric is
    computed on [e1] in one of two ways.  For ["score"] the call returns
    what [model.score(x_test, y_test, sample_weight_test)] gives on [e1]
    and that call is the only one: no [getattr] on [performance], and
    [metric_kws] goes nowhere.  For any other name the calls are, in this
    order, [getattr(performance, metric)], which raises [AttributeError]
    when the name is missing, [model.predict(x_test)] on [e1], and the
    function found, on [y_test], the predicted values,
    [sample_weight_test] and the [metric_kws]; the call returns what that
    function gives. *)
Theorem C6_metric_dispatch s (x_train x_test y_train y_test : ndarray)
    (metric : string) kw σ w_train w_test l e0 e1 pre st1 :
  sample_weights kw = Some (w_train, w_test) →
  resolved_model s kw σ l e0 pre st1 →
  est_fit e0 x_train y_train w_train = inr e1 →
  let r := call_strategy (Some s) (x_train, x_test) (y_train, y_test)
             metric kw σ in
  let metric_kws := default (default_metric_kws s) (kw_metric_kws kw) in
  let fit := EvFit l x_train y_train w_train in
  store r.2 = <[l := e1]> st1 ∧
  if decide (metric = "score") then
    r.1 = with_model l (est_score e1 x_test y_test w_test) ∧
    log r.2 = log σ ++ pre ++ [fit; EvScore l x_test y_test w_test]
  else
    match performance metric with
    | None =>
        r.1 = inl (AttributeError "performance" metric) ∧
        log r.2 = log σ ++ pre ++ [fit; EvGetattr metric]
    | Some func =>
        match est_predict e1 x_test with
        | inl e =>
            r.1 = inl e ∧
            log r.2 = log σ ++ pre
                        ++ [fit; EvGetattr metric; EvPredict l x_test]
        | inr y_pred =>
            "sample_weight" ∉ metric_kws.*1 →
            r.1 = with_model l (func y_test y_pred w_test metric_kws) ∧
            log r.2 = log σ ++ pre
                        ++ [fit; EvGetattr metric; EvPredict l x_test;
                            EvMetric metric y_test y_pred w_test metric_kws]
        end
    end.
Proof. apply strategy_dispatch. Qed.

End task_claims.
(** *** The claims of [task.py] on concrete inputs *)

(** C1, counterexample.  A float16 target and a byte-swapped float64
    target are of a floating-point type, an int16 target is of an integer
    type, and [select_model] returns [None] for all three. *)
Lemma C1_float16_int16_unselected :
  let y16 := Stub.labels np_float16 [3] [0; 0; 0]%Z in
  let i16 := Stub.labels np_int16 [3] [0; 1; 0]%Z in
  let f64_swapped :=
    Stub.labels (mk_dtype np_float64 order_swapped) [3] [0; 0; 0]%Z in
  (is_floating (dtype y16) = true ∧ Task.select_model y16 = None) ∧
  (is_integer (dtype i16) = true ∧ Task.select_model i16 = None) ∧
  (is_floating (dtype f64_swapped) = true ∧
   Task.select_model f64_swapped = None).
Proof. by vm_compute. Qed.

(** C3, counterexample.  A 1-D train array with a 2-D test array: the
    dimensionalities differ, nothing is raised and both arrays come back
    unchanged. *)
Lemma C3_mixed_dims_pass_through :
  let x_train := Stub.states [5] in
  let x_test := Stub.states [5; 3] in
  let y := Stub.labels np_float64 [5] [] in
  ndim x_train ≠ ndim x_test ∧
  Task.check_xy_dims (x_train, x_test) (y, y) ()
    = (inr (x_train, x_test, y, y), ()).
Proof. by vm_compute. Qed.

(** C4, counterexample.  A boolean target is neither floating nor
    integer; [select_model] returns [None] for it instead of raising, and
    the error of the [run_task] call is the one of calling [None]. *)
Lemma C4_bool_target_selects_nothing :
  is_floating (dtype TaskExamples.y_bool) = false ∧
  is_integer (dtype TaskExamples.y_bool) = false ∧
  Task.select_model TaskExamples.y_bool = None ∧
  Task.run_task (F:=list (string * ndarray)) TaskExamples.rs
      (TaskExamples.y_bool, TaskExamples.y_bool) (Task.MSeq ["score"])
      Stub.no_kwargs Stub.σ0
    = (inl (TypeError "'NoneType' object is not callable"), Stub.σ0).
Proof. by vm_compute. Qed.

Lemma C4_witness :
  Task.select_model TaskExamples.y_bool = None ∧
  ∃ e, Task.run_task (F:=list (string * ndarray)) TaskExamples.rs
         (TaskExamples.y_bool, TaskExamples.y_bool) (Task.MSeq ["score"])
         Stub.no_kwargs Stub.σ0 = (inl e, Stub.σ0) ∧
       (Task.metric_names (Task.MSeq ["score"]) ≠ [] →
        e = TypeError "'NoneType' object is not callable").
Proof.
  apply (C4_unsupported_dtype_selects_None (E:=nat)).
  apply (bool_decide_unpack _). vm_compute. exact I.
Defined.

(** C2, at the failing input.  Two metrics in one call with no model
    supplied: the call returns, and its log shows two estimators created
    and each fitted once.  ["score"] is computed on the first, and
    ["r2_score"] on the second, which is the one returned: the second
    metric does not come from the estimator the first was computed on. *)
Lemma C2_two_metrics_two_fits :
  let x_train := Stub.states [4; 2] in
  let x_test := Stub.states [2; 2] in
  let y_train := squeeze TaskExamples.tg_float.1 in
  let y_test := squeeze TaskExamples.tg_float.2 in
  let k := [("alpha", PyFloat 1 (-1)); ("fit_intercept", PyBool true)] in
  (TaskExamples.run (Task.MSeq ["score"; "r2_score"])).1
    = inr ([("score", Stub.scalar 1); ("r2_score", Stub.scalar 2)], 1) ∧
  Task.log (TaskExamples.run (Task.MSeq ["score"; "r2_score"])).2
    = [Task.EvNew 0 Task.cls_Ridge k;
       Task.EvFit 0 x_train y_train None;
       Task.EvScore 0 x_test y_test None;
       Task.EvPrint "score" (Stub.scalar 1);
       Task.EvNew 1 Task.cls_Ridge k;
       Task.EvFit 1 x_train y_train None;
       Task.EvGetattr "r2_score";
       Task.EvPredict 1 x_test;
       Task.EvMetric "r2_score" y_test
         (mk_ndarray np_float64 [2] []) None
         [("multioutput", PyStr "uniform_average")];
       Task.EvPrint "r2_score" (Stub.scalar 2)] ∧
  length (filter Task.is_fit
            (Task.log (TaskExamples.run (Task.MSeq ["score"; "r2_score"])).2))
    = 2 ∧
  Task.store (TaskExamples.run (Task.MSeq ["score"; "r2_score"])).2 = [1; 1].
Proof. by vm_compute. Qed.



Lemma C6_witness :
  let x_train := Stub.states [4; 2] in
  let x_test := Stub.states [2; 2] in
  let y_train := Stub.labels np_int64 [4] [0; 1; 1; 0]%Z in
  let y_test := Stub.labels np_int64 [2] [1; 0]%Z in
  let k := [("alpha", PyFloat 1 (-1)); ("fit_intercept", PyBool true)] in
  let run metric :=
    Task.call_strategy (Some Task.classification_fn) (x_train, x_test)
      (y_train, y_test) metric Stub.no_kwargs Stub.σ0 in
  (Task.store (run "score").2 = <[0 := 1]> [0] ∧
   (run "score").1 = Task.with_model 0 (est_score 1 x_test y_test None) ∧
   Task.log (run "score").2
     = Task.log Stub.σ0 ++ [Task.EvNew 0 Task.cls_RidgeClassifier k]
         ++ [Task.EvFit 0 x_train y_train None;
             Task.EvScore 0 x_test y_test None]) ∧
  (Task.store (run "r2_score").2 = <[0 := 1]> [0] ∧
   ("sample_weight" ∉ ([] : kws).*1 →
    (run "r2_score").1
      = Task.with_model 0 (inr (Stub.scalar 2)) ∧
    Task.log (run "r2_score").2
      = Task.log Stub.σ0 ++ [Task.EvNew 0 Task.cls_RidgeClassifier k]
          ++ [Task.EvFit 0 x_train y_train None;
              Task.EvGetattr "r2_score";
              Task.EvPredict 0 x_test;
              Task.EvMetric "r2_score" y_test
                (mk_ndarray np_float64 [2] []) None []])).
Proof.
  cbv zeta. split.
  - refine (C6_metric_dispatch (E:=nat) Task.classification_fn
              (Stub.states [4; 2]) (Stub.states [2; 2])
              (Stub.labels np_int64 [4] [0; 1; 1; 0]%Z)
              (Stub.labels np_int64 [2] [1; 0]%Z)
              "score" Stub.no_kwargs Stub.σ0 None None 0 0 1
              [Task.EvNew 0 Task.cls_RidgeClassifier
                 [("alpha", PyFloat 1 (-1)); ("fit_intercept", PyBool true)]]
              [0] _ _ _);
      vm_compute; (reflexivity || (repeat split; reflexivity)).
  - refine (C6_metric_dispatch (E:=nat) Task.classification_fn
              (Stub.states [4; 2]) (Stub.states [2; 2])
              (Stub.labels np_int64 [4] [0; 1; 1; 0]%Z)
              (Stub.labels np_int64 [2] [1; 0]%Z)
              "r2_score" Stub.no_kwargs Stub.σ0 None None 0 0 1
              [Task.EvNew 0 Task.cls_RidgeClassifier
                 [("alpha", PyFloat 1 (-1)); ("fit_intercept", PyBool true)]]
              [0] _ _ _);
      vm_compute; (reflexivity || (repeat split; reflexivity)).
Defined.

(** ** [example1_sims.py] *)

Section example1_facts.
Context `{!Conn2res}.
Context (DATA_DIR OUTPUT_DIR : string) (RSN_MAPPING : ndarray).
Import Example1 Example1Spec.
Implicit Types (σ : state) (c : conn) (alpha : float).

Lemma emit_eq ev σ :
  emit ev σ = (inr (), mk_state (rng σ) (fs σ) (log σ ++ [ev])).
Proof. done. Qed.

Lemma call_inv {A} ev (r : result A) σ a σ' :
  call ev r σ = (inr a, σ') →
  r = inr a ∧ σ' = mk_state (rng σ) (fs σ) (log σ ++ [ev]).
Proof.
  unfold call. intros (? & σ1 & Hemit & Hr)%bind_inv_inr.
  rewrite emit_eq in Hemit. unfold lift_result in Hr. by simplify_eq.
Qed.

Lemma sweep_success alphas c w_in output_nodes x_train x_test y_train y_test
    esn r dfs σ dfs' σ' :
  sweep RSN_MAPPING alphas c w_in output_nodes x_train x_test y_train y_test
        esn r dfs σ = (inr dfs', σ') →
  ∃ ps,
    length ps = length alphas ∧
    rng σ' = rng σ ∧ fs σ' = fs σ ∧
    log σ' = log σ ++
      concat (zip_with (pass_events (conn_w c) w_in output_nodes
                          x_train x_test y_train y_test) alphas ps) ∧
    dfs' = dfs ++ zip_with tag_alpha alphas ps ∧
    Forall (from_readout RSN_MAPPING y_train y_test) ps.
Proof.
  revert esn r dfs σ.
  induction alphas as [|alpha alphas IH]; intros esn r dfs σ Hrun.
  - simpl in Hrun. munfold. simplify_eq. exists [].
    by rewrite /= !app_nil_r.
  - simpl in Hrun.
    apply bind_inv_inr in Hrun as ([] & σ1 & Hemit & Hrun).
    rewrite emit_eq in Hemit. simplify_eq.
    apply bind_inv_inr in Hrun as (rs_train & σ2 & [_ ->]%call_inv & Hrun).
    apply bind_inv_inr in Hrun as (rs_test & σ3 & [_ ->]%call_inv & Hrun).
    apply bind_inv_inr in Hrun as ([df_res r'] & σ4 & [Hrt ->]%call_inv & Hrun).
    apply IH in Hrun as (ps & Hlen & Hrng & Hfs & Hlog & Hdfs & Hps).
    exists ((rs_train, rs_test, df_res) :: ps). simpl in *.
    split_and!; [by rewrite Hlen|done|done| | |].
    + rewrite Hlog /pass_events /= -!app_assoc //.
    + rewrite Hdfs -app_assoc //.
    + constructor; [by exists r, r'|done].
Qed.

Lemma randomize_inv swaps c σ c' σ' :
  randomize swaps c σ = (inr c', σ') →
  log σ' = log σ ++ [EvRandomize swaps] ∧ fs σ' = fs σ.
Proof.
  unfold randomize, emit. munfold. simpl.
  destruct (conn_randomize swaps c (rng σ)) as [[e|c1] g]; simpl;
    intros; by simplify_eq.
Qed.

(** A [run_workflow] call that returns: the objects it built, what it
    logged and the one file it wrote. *)
Lemma run_workflow_success w x y rewire filename σ σ' :
  run_workflow OUTPUT_DIR RSN_MAPPING w x y rewire filename σ = (inr (), σ') →
  ∃ c0 c w_in output_nodes x_train x_test y_train y_test ps big table,
    conn_scale_and_normalize c0 = inr c ∧
    readout_train_test_split x y = inr (x_train, x_test, y_train, y_test) ∧
    length ps = length ALPHAS ∧
    Forall (from_readout RSN_MAPPING y_train y_test) ps ∧
    log σ' = log σ ++ setup_events w y rewire ++ [EvTrainTestSplit x y] ++
      concat (zip_with (pass_events (conn_w c) w_in output_nodes
                          x_train x_test y_train y_test) ALPHAS ps) ++
      [EvToCsv (scores_path OUTPUT_DIR filename)] ∧
    pd_concat (zip_with tag_alpha ALPHAS ps) = inr big ∧
    frame_select big ["alpha"; "module"; "n_nodes"; "corrcoef"] = inr table ∧
    fs σ' = <[scores_path OUTPUT_DIR filename := table]> (fs σ) ∧
    (rewire = false → rng σ' = rng σ).
Proof.
  unfold run_workflow. intros Hrun.
  apply bind_inv_inr in Hrun as (c1 & σ1 & [_ ->]%call_inv & Hrun).
  apply bind_inv_inr in Hrun as (c2 & σ2 & Hrw & Hrun).
  assert (log σ2 = log σ ++ EvConn w :: (if rewire then [EvRandomize 10] else [])
          ∧ fs σ2 = fs σ ∧ (rewire = false → rng σ2 = rng σ))
    as (Hlog2 & Hfs2 & Hrng2).
  { destruct rewire.
    - apply randomize_inv in Hrw as [-> ->]. simpl.
      by rewrite -app_assoc.
    - munfold. by simplify_eq. }
  clear Hrw.
  apply bind_inv_inr in Hrun as (c & σ3 & [Hsn ->]%call_inv & Hrun).
  apply bind_inv_inr in Hrun as (input_nodes & σ4 & [_ ->]%call_inv & Hrun).
  apply bind_inv_inr in Hrun as (output_nodes & σ5 & [_ ->]%call_inv & Hrun).
  apply bind_inv_inr in Hrun as (w_in & σ6 & Hwin & Hrun).
  unfold lift_result in Hwin. simplify_eq.
  apply bind_inv_inr in Hrun as (est & σ7 & [_ ->]%call_inv & Hrun).
  apply bind_inv_inr in Hrun
    as ([[[x_train x_test] y_train] y_test] & σ8 & [Hsplit ->]%call_inv & Hrun).
  apply bind_inv_inr in Hrun as (dfs & σ9 & Hsweep & Hrun).
  apply sweep_success in Hsweep as (ps & Hlen & Hrng & Hfs & Hlog & -> & Hps).
  apply bind_inv_inr in Hrun as (big & σ10 & Hcat & Hrun).
  unfold lift_result in Hcat. simplify_eq.
  apply bind_inv_inr in Hrun as (m0 & σ11 & Hm0 & Hrun).
  unfold lift_result in Hm0. simplify_eq.
  apply bind_inv_inr in Hrun as (table & σ12 & Hsel & Hrun).
  unfold lift_result in Hsel. simplify_eq.
  unfold to_csv in Hrun. munfold. simplify_eq. simpl in *.
  exists c2, c, w_in, output_nodes, x_train, x_test, y_train, y_test, ps, big,
    table.
  split_and!; [done|done|done|done| |done|done| |].
  - rewrite Hlog Hlog2 /setup_events. destruct rewire; simpl;
      repeat (rewrite -app_assoc /=); done.
  - by rewrite Hfs Hfs2.
  - intros Hr. rewrite Hrng. by apply Hrng2.
Qed.


(** *** Frames *)

Lemma row_get_dict_set (r : list (string * cell float)) k v :
  row_get (dict_set r k v) k = v.
Proof.
  unfold row_get. induction r as [|[k' v'] r IH]; simpl.
  - by rewrite decide_True.
  - destruct (decide (k' = k)) as [->|Hne]; simpl.
    + by rewrite decide_True.
    + rewrite decide_False //.
      destruct (list_find _ (dict_set r k v)) as [[i [k1 v1]]|]; done.
Qed.

Lemma column_tag_alpha alpha (p : ndarray * ndarray * frame float) :
  (λ r, row_get r "alpha") <$> rows (tag_alpha alpha p)
    = replicate (length (rows p.2)) (CellFloat (np_round alpha 3)).
Proof.
  unfold tag_alpha, frame_set_column. simpl. rewrite -list_fmap_compose.
  induction (rows p.2) as [|r rs IH]; [done|].
  simpl. f_equal; [apply row_get_dict_set|apply IH].
Qed.

Lemma pd_concat_rows (dfs : list (frame float)) big :
  pd_concat dfs = inr big → rows big = concat (rows <$> dfs).
Proof. destruct dfs; [done|]. intros [= <-]. done. Qed.

Lemma frame_select_alpha (big table : frame float) cols :
  frame_select big ("alpha" :: cols) = inr table →
  columns table = "alpha" :: cols ∧
  length (rows table) = length (rows big) ∧
  column table "alpha" = (λ r, row_get r "alpha") <$> rows big.
Proof.
  unfold frame_select. destruct (list_find _ _) as [[i c]|]; [done|].
  intros [= <-]. unfold column. simpl. split_and!; [done| |].
  - by rewrite length_fmap.
  - rewrite -list_fmap_compose. apply list_fmap_ext. intros i r _.
    done.
Qed.

(** The [alpha] column and the row count of the concatenated passes. *)
Lemma passes_alpha_column (M : nat) (alphas : list float)
    (ps : list (ndarray * ndarray * frame float)) :
  length ps = length alphas →
  Forall (λ p, length (rows p.2) = M) ps →
  (λ r, row_get r "alpha") <$> concat (rows <$> zip_with tag_alpha alphas ps)
    = alphas ≫= (λ alpha, replicate M (CellFloat (np_round alpha 3))).
Proof.
  revert ps. induction alphas as [|alpha alphas IH]; intros [|p ps] Hlen Hps;
    simplify_eq/=; [done|].
  apply Forall_cons in Hps as [Hp Hps].
  rewrite fmap_app column_tag_alpha Hp IH //.
Qed.

Lemma sim_weights_passes W w_in output_nodes x_train x_test y_train y_test
    (alphas : list float) (ps : list (ndarray * ndarray * frame float)) :
  length ps = length alphas →
  sim_weights (concat (zip_with (pass_events W w_in output_nodes
                                   x_train x_test y_train y_test) alphas ps))
    = alphas ≫= (λ alpha, [np_mul alpha W; np_mul alpha W]).
Proof.
  revert ps. induction alphas as [|alpha alphas IH]; intros [|p ps] Hlen;
    simplify_eq/=; [done|].
  unfold sim_weights in *. by rewrite IH.
Qed.

Lemma split_not_in_passes W w_in output_nodes x_train x_test y_train y_test
    (alphas : list float) (ps : list (ndarray * ndarray * frame float)) a b :
  EvTrainTestSplit a b ∉
    concat (zip_with (pass_events W w_in output_nodes
                        x_train x_test y_train y_test) alphas ps).
Proof.
  revert ps. induction alphas as [|alpha alphas IH]; intros [|p ps];
    simpl; try apply not_elem_of_nil.
  rewrite !not_elem_of_cons. split_and!; first [done|apply IH].
Qed.

End example1_facts.

Section example1_sweep_claims.
Context `{!Conn2res}.
Context (OUTPUT_DIR : string) (RSN_MAPPING : ndarray).
Import Example1 Example1Spec.
Implicit Types (σ : state).

(** C7 (as amended).  The sweep values are the module constant [ALPHAS]
    ([run_workflow] takes no sweep argument).  When every frame the
    readout returns for this metric and module mapping has [M] rows (one
    per module), a [run_workflow] call that returns has written, at the
    path made from [filename], a table with the columns alpha, module,
    n_nodes and the metric, with [length ALPHAS * M] rows, whose alpha
    column read in row order is [ALPHAS] in its given order, each value
    rounded to three decimals and repeated [M] times: nothing is
    reordered or dropped. *)
Theorem C7_sweep_table (M : nat) (w x y : ndarray) (rewire : bool)
    (filename : option string) σ σ' :
  (∀ r X Y df r',
     readout_run_task r X Y METRIC RSN_MAPPING metric_kwargs = inr (df, r') →
     length (rows df) = M) →
  run_workflow OUTPUT_DIR RSN_MAPPING w x y rewire filename σ = (inr (), σ') →
  ∃ table,
    fs σ' !! scores_path OUTPUT_DIR filename = Some table ∧
    columns table = ["alpha"; "module"; "n_nodes"; "corrcoef"] ∧
    length (rows table) = length ALPHAS * M ∧
    column table "alpha"
      = ALPHAS ≫= (λ alpha, replicate M (CellFloat (np_round alpha 3))).
Proof.
  intros HM (c0 & c & w_in & out & x_train & x_test & y_train & y_test & ps
             & big & table & _ & _ & Hlen & Hps & _ & Hcat & Hsel & Hfs & _)
           %run_workflow_success.
  assert (Forall (λ p, length (rows p.2) = M) ps) as HpsM.
  { eapply Forall_impl; [exact Hps|]. intros p (r & r' & Hr). by eapply HM. }
  apply pd_concat_rows in Hcat.
  apply frame_select_alpha in Hsel as (Hcols & Hrows & Hcol).
  pose proof (passes_alpha_column M ALPHAS ps Hlen HpsM) as Hpass.
  exists table. split_and!.
  - rewrite Hfs. apply lookup_insert_eq.
  - done.
  - rewrite Hrows -(length_fmap (λ r, row_get r "alpha")) Hcat Hpass.
    clear. induction ALPHAS as [|a l IH]; [done|].
    rewrite /= length_app length_replicate IH. lia.
  - by rewrite Hcol Hcat.
Qed.

(** C8.  A [run_workflow] call that returns has split the data exactly
    once, after the set-up and before the first pass of the sweep, and
    every pass, one per sweep value, simulates on the [x_train] and the
    [x_test] of that one split and evaluates on its [y_train] and
    [y_test]. *)
Theorem C8_split_once (w x y : ndarray) (rewire : bool)
    (filename : option string) σ σ' :
  run_workflow OUTPUT_DIR RSN_MAPPING w x y rewire filename σ = (inr (), σ') →
  ∃ x_train x_test y_train y_test W w_in output_nodes ps,
    readout_train_test_split x y = inr (x_train, x_test, y_train, y_test) ∧
    length ps = length ALPHAS ∧
    log σ' = log σ ++ setup_events w y rewire ++ [EvTrainTestSplit x y] ++
      concat (zip_with (pass_events W w_in output_nodes
                          x_train x_test y_train y_test) ALPHAS ps) ++
      [EvToCsv (scores_path OUTPUT_DIR filename)] ∧
    ∀ a b,
      (EvTrainTestSplit a b ∉ setup_events w y rewire) ∧
      (EvTrainTestSplit a b ∉
         concat (zip_with (pass_events W w_in output_nodes
                             x_train x_test y_train y_test) ALPHAS ps) ++
         [EvToCsv (scores_path OUTPUT_DIR filename)]).
Proof.
  intros (c0 & c & w_in & out & x_train & x_test & y_train & y_test & ps
          & big & table & _ & Hsplit & Hlen & _ & Hlog & _)
         %run_workflow_success.
  exists x_train, x_test, y_train, y_test, (conn_w c), w_in, out, ps.
  split_and!; [done|done|done|]. intros a b. split.
  - unfold setup_events. destruct rewire; simpl;
      rewrite !not_elem_of_cons; split_and!; try done; apply not_elem_of_nil.
  - rewrite not_elem_of_app. split; [apply split_not_in_passes|].
    by intros [=]%list_elem_of_singleton.
Qed.

(** C10.  In a [run_workflow] call that returns, [c] being the
    connectome as [scale_and_normalize] left it, the simulator is run
    twice per sweep value, in the order of [ALPHAS], and each time with
    the weights [alpha * conn.w] for the [conn.w] of that same [c]: the
    sweep never writes to [conn.w], so no scaling carries over from one
    sweep value to the next. *)
Theorem C10_weights_do_not_compound (w x y : ndarray) (rewire : bool)
    (filename : option string) σ σ' :
  run_workflow OUTPUT_DIR RSN_MAPPING w x y rewire filename σ = (inr (), σ') →
  ∃ c0 c evs,
    conn_scale_and_normalize c0 = inr c ∧
    log σ' = log σ ++ evs ∧
    sim_weights evs
      = ALPHAS ≫= (λ alpha, [np_mul alpha (conn_w c); np_mul alpha (conn_w c)]).
Proof.
  intros (c0 & c & w_in & out & x_train & x_test & y_train & y_test & ps
          & big & table & Hsn & _ & Hlen & _ & Hlog & _)
         %run_workflow_success.
  eexists c0, c, _. split_and!; [done|done|].
  unfold sim_weights. rewrite !omap_app.
  fold (sim_weights (concat (zip_with (pass_events (conn_w c) w_in out
          x_train x_test y_train y_test) ALPHAS ps))).
  rewrite sim_weights_passes //.
  unfold setup_events. destruct rewire; simpl; by rewrite app_nil_r.
Qed.

End example1_sweep_claims.

(** ** More on [task.py] *)

Lemma squeeze_idemp (a : ndarray) : squeeze (squeeze a) = squeeze a.
Proof.
  unfold squeeze. simpl. f_equal.
  induction (shape a) as [|n sh IH]; [done|].
  rewrite filter_cons. case_decide; [|done].
  rewrite filter_cons decide_True //. by f_equal.
Qed.

Lemma dict_set_keys {V} (d : list (string * V)) k v :
  (dict_set d k v).*1 = if decide (k ∈ d.*1) then d.*1 else d.*1 ++ [k].
Proof.
  induction d as [|[k' v'] d IH]; csimpl; [done|].
  destruct (decide (k' = k)) as [->|Hne]; csimpl.
  - rewrite decide_True //. by left.
  - rewrite IH. destruct (decide (k ∈ d.*1)) as [Hin|Hin].
    + rewrite decide_True //. by right.
    + rewrite decide_False //. by intros [?|?]%elem_of_cons.
Qed.

Section task_more.
Context {E F : Type} {sk : Sklearn E} {pf : Performance} {pd : Pandas F}.
Import Task.
Implicit Types (σ : state E) (kw : kwargs) (s : strategy) (l : loc).

(** A training call that returns touches no estimator but its model. *)
Lemma strategy_success_frame s x y metric kw σ v l σ' l' :
  call_strategy (Some s) x y metric kw σ = (inr (v, l), σ') →
  l' ≠ l → store σ' !! l' = store σ !! l'.
Proof.
  destruct x as [x_train x_test], y as [y_train y_test].
  intros (w_train & w_test & e0 & e1 & pre & st1 & scoring & _ & Hm & _ & Hst
          & _)%strategy_success Hne.
  rewrite Hst list_lookup_insert_ne //.
  destruct Hm as [(_ & _ & _ & ->)|(_ & -> & _ & _ & ->)]; [done|].
  destruct (decide (l' < length (store σ))).
  - by rewrite lookup_app_l.
  - rewrite !lookup_ge_None_2 // ?length_app /=; lia.
Qed.

(** The loop of [run_task], when it returns: the store, the variable
    [model] and the keys of [metrics]. *)
Lemma loop_success_state s x y kw ms acc mdl σ acc' mdl' σ' :
  run_task_loop (Some s) x y kw ms acc mdl σ = (inr (acc', mdl'), σ') →
  length (store σ')
    = length (store σ) + match kw_model kw with
                         | Some _ => 0
                         | None => length ms
                         end ∧
  (ms ≠ [] →
   mdl' = Some (match kw_model kw with
                | Some l0 => l0
                | None => length (store σ) + length ms - 1
                end)) ∧
  (NoDup acc.*1 → NoDup acc'.*1) ∧
  (∀ m, m ∈ acc'.*1 ↔ m ∈ acc.*1 ∨ m ∈ ms) ∧
  (∀ l', l' < length (store σ) → Some l' ≠ kw_model kw →
         store σ' !! l' = store σ !! l').
Proof.
  revert acc mdl σ. induction ms as [|m ms IH]; intros acc mdl σ Hrun.
  - simpl in Hrun. munfold. simplify_eq.
    split_and!; [destruct (kw_model kw); simpl; lia|done|done| |done].
    intros m. split; [by left|]. intros [?|?%elem_of_nil]; done.
  - simpl in Hrun.
    apply bind_inv_inr in Hrun as ([v l] & σ1 & Hcall & Hrun).
    apply bind_inv_inr in Hrun as ([] & σ2 & Hemit & Hrun).
    unfold emit in Hemit. munfold. simplify_eq.
    pose proof Hcall as Hframe.
    apply strategy_success_log in Hcall
      as (evs1 & w1 & w2 & _ & _ & _ & _ & _ & Hst).
    pose proof Hrun as Hrun'.
    apply IH in Hrun as (Hlen & Hmdl & Hnd & Hkeys & Hfr). simpl in *.
    split_and!.
    + destruct (kw_model kw); destruct Hst as [_ Hst]; simpl in *;
        rewrite Hlen Hst; clear; lia.
    + intros _. destruct ms as [|m2 ms].
      * simpl in Hrun'. munfold. simplify_eq.
        destruct (kw_model kw); destruct Hst as [-> _]; f_equal; simpl; lia.
      * rewrite Hmdl //. destruct (kw_model kw); [done|].
        destruct Hst as [_ Hst]. f_equal. simpl in *. lia.
    + intros Hacc. apply Hnd. rewrite dict_set_keys.
      case_decide; [done|]. apply NoDup_app. split_and!; [done| |].
      * intros k Hk ->%list_elem_of_singleton. done.
      * apply NoDup_singleton.
    + intros k. rewrite Hkeys dict_set_keys elem_of_cons.
      case_decide as Hin.
      * split; [intros [?|?]; auto|]. intros [?|[->|?]]; auto.
      * rewrite elem_of_app list_elem_of_singleton. tauto.
    + intros l' Hl' Hne. trans (store σ1 !! l').
      * apply Hfr; [|done].
        destruct (kw_model kw); destruct Hst as [_ Hst]; lia.
      * eapply strategy_success_frame; [exact Hframe|].
        destruct (kw_model kw); destruct Hst as [-> _]; [congruence|lia].
Qed.

(** X1.  State arrays that are both 2-D come back from [check_xy_dims]
    unchanged, and normalizing the output once more changes nothing:
    on 2-D states the normalization is idempotent. *)
Theorem X1_check_xy_dims_2d_idempotent {S : Type}
    (x_train x_test y_train y_test : ndarray) (σ : S) :
  ndim x_train = 2 → ndim x_test = 2 →
  check_xy_dims (x_train, x_test) (y_train, y_test) σ
    = (inr (x_train, x_test, squeeze y_train, squeeze y_test), σ) ∧
  check_xy_dims (x_train, x_test) (squeeze y_train, squeeze y_test) σ
    = (inr (x_train, x_test, squeeze y_train, squeeze y_test), σ).
Proof.
  intros H1 H2. unfold check_xy_dims. rewrite H1 H2 /=. munfold.
  by rewrite !squeeze_idemp.
Qed.

Lemma check_xy_dims_1d {S : Type}
    (x_train x_test y_train y_test : ndarray) (σ : S) :
  ndim x_train = 1 → ndim x_test = 1 →
  ∃ x_train' x_test',
    check_xy_dims (x_train, x_test) (y_train, y_test) σ
      = (inr (x_train', x_test', squeeze y_train, squeeze y_test), σ) ∧
    shape x_train' = shape x_train ++ [1] ∧
    dtype x_train' = dtype x_train ∧ data x_train' = data x_train ∧
    shape x_test' = shape x_test ++ [1] ∧
    dtype x_test' = dtype x_test ∧ data x_test' = data x_test.
Proof.
  intros H1 H2. unfold check_xy_dims, newaxis1, ndim in *.
  rewrite H1 H2 /=. munfold.
  destruct (shape x_train) as [|n1 [|? ?]] eqn:E1; try done.
  destruct (shape x_test) as [|n2 [|? ?]] eqn:E2; try done.
  by eexists _, _.
Qed.

(** X2.  State arrays that are both 1-D each get one trailing axis of
    length one, with the element type and the elements kept, and that
    output is a fixed point of the normalization. *)
Theorem X2_check_xy_dims_1d {S : Type}
    (x_train x_test y_train y_test : ndarray) (σ : S) :
  ndim x_train = 1 → ndim x_test = 1 →
  ∃ x_train' x_test',
    check_xy_dims (x_train, x_test) (y_train, y_test) σ
      = (inr (x_train', x_test', squeeze y_train, squeeze y_test), σ) ∧
    shape x_train' = shape x_train ++ [1] ∧
    dtype x_train' = dtype x_train ∧ data x_train' = data x_train ∧
    shape x_test' = shape x_test ++ [1] ∧
    dtype x_test' = dtype x_test ∧ data x_test' = data x_test ∧
    check_xy_dims (x_train', x_test') (squeeze y_train, squeeze y_test) σ
      = (inr (x_train', x_test', squeeze y_train, squeeze y_test), σ).
Proof.
  intros H1 H2.
  destruct (check_xy_dims_1d x_train x_test y_train y_test σ H1 H2)
    as (x1 & x2 & Hrun & Hs1 & Hd1 & Hv1 & Hs2 & Hd2 & Hv2).
  exists x1, x2. split_and!; try done.
  unfold check_xy_dims, ndim in *. rewrite Hs1 Hs2 !length_app H1 H2 /=.
  munfold. by rewrite !squeeze_idemp.
Qed.

(** X3.  State arrays with more than two axes are squeezed, not made
    2-D: when each has exactly one axis that is not of length one, both
    come back 1-D, and normalizing that output again gives other arrays
    (now 2-D).  On such input the normalization is not idempotent. *)
Theorem X3_check_xy_dims_squeeze_to_1d {S : Type}
    (x_train x_test y_train y_test : ndarray) (σ : S) :
  2 < ndim x_train → 2 < ndim x_test →
  ndim (squeeze x_train) = 1 → ndim (squeeze x_test) = 1 →
  check_xy_dims (x_train, x_test) (y_train, y_test) σ
    = (inr (squeeze x_train, squeeze x_test,
            squeeze y_train, squeeze y_test), σ) ∧
  ∃ x_train' x_test',
    check_xy_dims (squeeze x_train, squeeze x_test)
        (squeeze y_train, squeeze y_test) σ
      = (inr (x_train', x_test', squeeze y_train, squeeze y_test), σ) ∧
    ndim x_train' = 2 ∧ ndim x_test' = 2 ∧
    x_train' ≠ squeeze x_train ∧ x_test' ≠ squeeze x_test.
Proof.
  intros H1 H2 H3 H4. split.
  - unfold check_xy_dims.
    rewrite (bool_decide_eq_true_2 _ H1) (bool_decide_eq_true_2 _ H2).
    assert (Hf : bool_decide (ndim x_train = 1) = false)
      by (apply bool_decide_eq_false_2; lia).
    by rewrite Hf.
  - destruct (check_xy_dims_1d (squeeze x_train) (squeeze x_test)
                (squeeze y_train) (squeeze y_test) σ H3 H4)
      as (x1 & x2 & Hrun & Hs1 & _ & _ & Hs2 & _ & _).
    rewrite !squeeze_idemp in Hrun. exists x1, x2.
    unfold ndim in *. rewrite Hs1 Hs2 !length_app H3 H4 /=.
    split_and!; [done|done|done| |]; intros Heq; rewrite Heq in Hs1 Hs2.
    + apply (f_equal length) in Hs1. rewrite length_app /= in Hs1. lia.
    + apply (f_equal length) in Hs2. rewrite length_app /= in Hs2. lia.
Qed.

(** X4.  A [run_task] call that returns has left every estimator that
    existed before the call untouched, the caller's model excepted. *)
Theorem X4_run_task_frame (rs tg : ndarray * ndarray) (metric : metric_arg)
    kw σ (df : F) l σ' l' :
  run_task rs tg metric kw σ = (inr (df, l), σ') →
  l' < length (store σ) → Some l' ≠ kw_model kw →
  store σ' !! l' = store σ !! l'.
Proof.
  intros Hrun Hl' Hne. unfold run_task in Hrun.
  destruct (check_xy_dims_total rs tg σ) as (x1 & x2 & Hchk).
  rewrite (bind_inr _ _ _ _ _ Hchk) /= in Hrun.
  apply bind_inv_inr in Hrun as ([metrics mdl] & σ1 & Hloop & Hrun).
  apply bind_inv_inr in Hrun as (df' & σ2 & Hdf & Hrun).
  unfold lift_result in Hdf. simplify_eq.
  destruct mdl as [l0|]; [|done]. munfold. simplify_eq.
  destruct (select_model (squeeze tg.1)) as [s|] eqn:Hsel.
  - apply loop_success_state in Hloop as (_ & _ & _ & _ & Hfr). by apply Hfr.
  - destruct (metric_names metric); [|done].
    simpl in Hloop. munfold. by simplify_eq.
Qed.

(** X5.  With [sample_weight=None] in the keyword arguments, a target of
    a supported dtype and at least one metric, [run_task] raises the
    [TypeError] of unpacking [None] before it creates, fits or logs
    anything. *)
Theorem X5_sample_weight_None (rs tg : ndarray * ndarray)
    (metric : metric_arg) kw σ :
  kw_sample_weight kw = Some SwNone →
  is_Some (select_model (squeeze tg.1)) →
  metric_names metric ≠ [] →
  run_task (F:=F) rs tg metric kw σ
    = (inl (TypeError "cannot unpack non-iterable NoneType object"), σ).
Proof.
  intros Hsw [s Hs] Hne. unfold run_task.
  destruct (check_xy_dims_total rs tg σ) as (x1 & x2 & Hchk).
  rewrite (bind_inr _ _ _ _ _ Hchk) /= Hs.
  destruct (metric_names metric) as [|m ms]; [done|]. simpl.
  erewrite bind_inl; [done|]. erewrite bind_inl; [done|].
  destruct s; simpl; unfold regression, classification, pop_sample_weight;
    rewrite Hsw; done.
Qed.

(** X6.  When [fit] raises on the caller's model, the training function
    raises that same error and stops there: the log grows by the fit alone
    (no [score], [getattr], [predict] or metric call follows). *)
Theorem X6_fit_error_propagates s (x_train x_test y_train y_test : ndarray)
    (metric : string) kw σ l e0 w_train w_test e :
  sample_weights kw = Some (w_train, w_test) →
  kw_model kw = Some l → store σ !! l = Some e0 →
  est_fit e0 x_train y_train w_train = inl e →
  ∃ σ',
    call_strategy (Some s) (x_train, x_test) (y_train, y_test) metric kw σ
      = (inl e, σ') ∧
    log σ' = log σ ++ [EvFit l x_train y_train w_train].
Proof.
  intros Hw Hm Hl Hfit. unfold sample_weights in Hw.
  destruct s; simpl; unfold regression, classification, pop_sample_weight,
    model_fit, deref, emit; rewrite Hm; munfold; simpl.
  all: destruct (kw_sample_weight kw) as [[|a b]|]; simplify_eq/=.
  all: rewrite Hl /= Hfit; by eexists.
Qed.

(** X7.  With an empty metric sequence [run_task] never returns, whatever
    the target and the keyword arguments: nothing is created, fitted or
    logged, and when the empty frame can be built the error is the
    [UnboundLocalError] of the variable [model], which only a pass of the
    loop binds. *)
Theorem X7_empty_metric_sequence (rs tg : ndarray * ndarray) kw σ :
  ∃ e,
    run_task (F:=F) rs tg (MSeq []) kw σ = (inl e, σ) ∧
    ∀ df, pd_DataFrame [] = inr df → e = UnboundLocalError "model".
Proof.
  unfold run_task.
  destruct (check_xy_dims_total rs tg σ) as (x1 & x2 & Hchk).
  rewrite (bind_inr _ _ _ _ _ Hchk) /=. munfold.
  destruct (pd_DataFrame []) as [e|df0]; simpl; eexists; (split; [done|]).
  - by intros df.
  - by intros df.
Qed.

(** X8.  A [run_task] call that returns hands back the estimator of its
    last pass: the caller's own object when a model was supplied (and then
    no estimator is created), otherwise the last of the fresh estimators,
    of which it created one per requested metric. *)
Theorem X8_returned_model_is_last_pass (rs tg : ndarray * ndarray)
    (metric : metric_arg) kw σ (df : F) l σ' :
  run_task rs tg metric kw σ = (inr (df, l), σ') →
  match kw_model kw with
  | Some l0 => l = l0 ∧ length (store σ') = length (store σ)
  | None =>
      l = length (store σ) + length (metric_names metric) - 1 ∧
      length (store σ') = length (store σ) + length (metric_names metric)
  end.
Proof.
  intros Hrun. unfold run_task in Hrun.
  destruct (check_xy_dims_total rs tg σ) as (x1 & x2 & Hchk).
  rewrite (bind_inr _ _ _ _ _ Hchk) /= in Hrun.
  apply bind_inv_inr in Hrun as ([metrics mdl] & σ1 & Hloop & Hrun).
  apply bind_inv_inr in Hrun as (df' & σ2 & Hdf & Hrun).
  unfold lift_result in Hdf. simplify_eq.
  destruct mdl as [l0|]; [|done]. munfold. simplify_eq.
  destruct (select_model (squeeze tg.1)) as [s|] eqn:Hsel.
  - destruct (metric_names metric) as [|m ms] eqn:Hms.
    { simpl in Hloop. munfold. by simplify_eq. }
    apply loop_success_state in Hloop as (Hlen & Hmdl & _).
    specialize (Hmdl ltac:(done)).
    destruct (kw_model kw); simplify_eq; split; (done || lia).
  - destruct (metric_names metric) as [|m ms]; [|done].
    simpl in Hloop. munfold. by simplify_eq.
Qed.

(** X9.  The dictionary that [run_task] turns into the result frame has
    one entry per distinct requested metric name: its keys are free of
    duplicates, and a name is a key exactly when it was requested, so a
    metric requested twice yields one column. *)
Theorem X9_one_column_per_distinct_metric (rs tg : ndarray * ndarray)
    (metric : metric_arg) kw σ (df : F) l σ' :
  run_task rs tg metric kw σ = (inr (df, l), σ') →
  ∃ metrics,
    pd_DataFrame metrics = inr df ∧
    NoDup metrics.*1 ∧
    ∀ m, m ∈ metrics.*1 ↔ m ∈ metric_names metric.
Proof.
  intros Hrun. unfold run_task in Hrun.
  destruct (check_xy_dims_total rs tg σ) as (x1 & x2 & Hchk).
  rewrite (bind_inr _ _ _ _ _ Hchk) /= in Hrun.
  apply bind_inv_inr in Hrun as ([metrics mdl] & σ1 & Hloop & Hrun).
  apply bind_inv_inr in Hrun as (df' & σ2 & Hdf & Hrun).
  unfold lift_result in Hdf.
  destruct (pd_DataFrame metrics) as [?|df0] eqn:Hpd; simplify_eq.
  destruct mdl as [l0|]; [|done]. munfold. simplify_eq.
  exists metrics. split; [done|].
  destruct (select_model (squeeze tg.1)) as [s|] eqn:Hsel.
  - apply loop_success_state in Hloop as (_ & _ & Hnd & Hin & _).
    split; [apply Hnd; constructor|].
    intros m. rewrite Hin /= elem_of_nil. tauto.
  - destruct (metric_names metric); [|done].
    simpl in Hloop. munfold. by simplify_eq.
Qed.

End task_more.

Lemma X1_witness :
  Task.check_xy_dims (S:=unit) TaskExamples.rs TaskExamples.tg_float ()
    = (inr (TaskExamples.rs.1, TaskExamples.rs.2,
            squeeze TaskExamples.tg_float.1, squeeze TaskExamples.tg_float.2), ()) ∧
  Task.check_xy_dims (S:=unit) TaskExamples.rs
      (squeeze TaskExamples.tg_float.1, squeeze TaskExamples.tg_float.2) ()
    = (inr (TaskExamples.rs.1, TaskExamples.rs.2,
            squeeze TaskExamples.tg_float.1, squeeze TaskExamples.tg_float.2), ()).
Proof.
  apply (X1_check_xy_dims_2d_idempotent (S:=unit) (Stub.states [4; 2])
           (Stub.states [2; 2]) (Stub.labels np_float64 [4; 1] [])
           (Stub.labels np_float64 [2; 1] []) ()); reflexivity.
Defined.

Lemma X2_witness :
  ∃ x_train' x_test',
    Task.check_xy_dims (S:=unit) (Stub.states [4], Stub.states [2])
        TaskExamples.tg_float ()
      = (inr (x_train', x_test', squeeze TaskExamples.tg_float.1,
              squeeze TaskExamples.tg_float.2), ()) ∧
    shape x_train' = [4] ++ [1] ∧
    dtype x_train' = np_float64 ∧ data x_train' = [] ∧
    shape x_test' = [2] ++ [1] ∧
    dtype x_test' = np_float64 ∧ data x_test' = [] ∧
    Task.check_xy_dims (S:=unit) (x_train', x_test')
        (squeeze TaskExamples.tg_float.1, squeeze TaskExamples.tg_float.2) ()
      = (inr (x_train', x_test', squeeze TaskExamples.tg_float.1,
              squeeze TaskExamples.tg_float.2), ()).
Proof.
  apply (X2_check_xy_dims_1d (S:=unit) (Stub.states [4]) (Stub.states [2])
           (Stub.labels np_float64 [4; 1] [])
           (Stub.labels np_float64 [2; 1] []) ()); reflexivity.
Defined.

Lemma X3_witness :
  Task.check_xy_dims (S:=unit) (Stub.states [4; 1; 1], Stub.states [1; 2; 1])
      TaskExamples.tg_float ()
    = (inr (squeeze (Stub.states [4; 1; 1]), squeeze (Stub.states [1; 2; 1]),
            squeeze TaskExamples.tg_float.1,
            squeeze TaskExamples.tg_float.2), ()) ∧
  ∃ x_train' x_test',
    Task.check_xy_dims (S:=unit)
        (squeeze (Stub.states [4; 1; 1]), squeeze (Stub.states [1; 2; 1]))
        (squeeze TaskExamples.tg_float.1, squeeze TaskExamples.tg_float.2) ()
      = (inr (x_train', x_test', squeeze TaskExamples.tg_float.1,
              squeeze TaskExamples.tg_float.2), ()) ∧
    ndim x_train' = 2 ∧ ndim x_test' = 2 ∧
    x_train' ≠ squeeze (Stub.states [4; 1; 1]) ∧
    x_test' ≠ squeeze (Stub.states [1; 2; 1]).
Proof.
  apply (X3_check_xy_dims_squeeze_to_1d (S:=unit) (Stub.states [4; 1; 1])
           (Stub.states [1; 2; 1]) (Stub.labels np_float64 [4; 1] [])
           (Stub.labels np_float64 [2; 1] []) ());
    vm_compute; (reflexivity || lia).
Defined.



Lemma X4_witness :
  Task.store
    (Task.run_task (F:=list (string * ndarray)) TaskExamples.rs
       TaskExamples.tg_float (Task.MSeq ["score"; "r2_score"])
       TaskExamples2.with_model TaskExamples2.σ2).2 !! 0
  = Task.store TaskExamples2.σ2 !! 0.
Proof.
  apply (X4_run_task_frame (E:=nat) TaskExamples.rs TaskExamples.tg_float
           (Task.MSeq ["score"; "r2_score"]) TaskExamples2.with_model
           TaskExamples2.σ2
           [("score", Stub.scalar 1); ("r2_score", Stub.scalar 2)] 1 _ 0).
  - vm_compute. reflexivity.
  - vm_compute. lia.
  - discriminate.
Defined.

Lemma X5_witness :
  Task.run_task (F:=list (string * ndarray)) TaskExamples.rs
      TaskExamples.tg_float (Task.MStr "score") TaskExamples2.weight_None
      Stub.σ0
    = (inl (TypeError "cannot unpack non-iterable NoneType object"), Stub.σ0).
Proof.
  apply (X5_sample_weight_None (E:=nat) TaskExamples.rs TaskExamples.tg_float
           (Task.MStr "score") TaskExamples2.weight_None Stub.σ0).
  - reflexivity.
  - vm_compute. by eexists.
  - discriminate.
Defined.

Lemma X6_witness :
  ∃ σ',
    Task.call_strategy (Sklearn0:=TaskExamples2.sklearn_strict)
        (Some Task.regression_fn) TaskExamples.rs
        (TaskExamples2.short_target, TaskExamples2.short_target) "score"
        TaskExamples2.with_model TaskExamples2.σ2
      = (inl (ValueError "inconsistent numbers of samples"), σ') ∧
    Task.log σ' = Task.log TaskExamples2.σ2
      ++ [Task.EvFit 1 TaskExamples.rs.1 TaskExamples2.short_target None].
Proof.
  apply (X6_fit_error_propagates (sk:=TaskExamples2.sklearn_strict)
           Task.regression_fn TaskExamples.rs.1 TaskExamples.rs.2
           TaskExamples2.short_target TaskExamples2.short_target "score"
           TaskExamples2.with_model TaskExamples2.σ2 1 7 None None);
    reflexivity.
Defined.

Lemma X8_witness :
  2 = length (Task.store Stub.σ0)
      + length (Task.metric_names (Task.MSeq ["score"; "r2_score"; "score"])) - 1 ∧
  length (Task.store
            (TaskExamples.run (Task.MSeq ["score"; "r2_score"; "score"])).2)
    = length (Task.store Stub.σ0)
      + length (Task.metric_names (Task.MSeq ["score"; "r2_score"; "score"])).
Proof.
  apply (X8_returned_model_is_last_pass (E:=nat) TaskExamples.rs
           TaskExamples.tg_float (Task.MSeq ["score"; "r2_score"; "score"])
           Stub.no_kwargs Stub.σ0
           [("score", Stub.scalar 1); ("r2_score", Stub.scalar 2)] 2).
  vm_compute. reflexivity.
Defined.

Lemma X9_witness :
  ∃ metrics,
    pd_DataFrame metrics
      = inr [("score", Stub.scalar 1); ("r2_score", Stub.scalar 2)] ∧
    NoDup metrics.*1 ∧
    ∀ m, m ∈ metrics.*1
         ↔ m ∈ Task.metric_names (Task.MSeq ["score"; "r2_score"; "score"]).
Proof.
  apply (X9_one_column_per_distinct_metric (E:=nat) TaskExamples.rs
           TaskExamples.tg_float (Task.MSeq ["score"; "r2_score"; "score"])
           Stub.no_kwargs Stub.σ0
           [("score", Stub.scalar 1); ("r2_score", Stub.scalar 2)] 2
           (TaskExamples.run (Task.MSeq ["score"; "r2_score"; "score"])).2).
  vm_compute. reflexivity.
Defined.

(** ** More on [example1_sims.py] *)

Lemma foldl_insert_length {A} (f : Z → nat) (v : A) nodes row :
  length (foldl (λ row i, <[f i := v]> row) row nodes) = length row.
Proof.
  revert row. induction nodes as [|i nodes IH]; intros row; [done|].
  by rewrite /= IH length_insert.
Qed.

Lemma foldl_insert_lookup {A} (f : Z → nat) (v : A) nodes row j :
  j < length row →
  foldl (λ row i, <[f i := v]> row) row nodes !! j
    = if bool_decide (Exists (λ i, f i = j) nodes) then Some v else row !! j.
Proof.
  revert row. induction nodes as [|i nodes IH]; intros row Hj.
  - case_bool_decide as Hex; [|done]. by apply Exists_nil in Hex.
  - cbn [foldl]. rewrite IH; [|by rewrite length_insert].
    rewrite (bool_decide_ext _ _ (Exists_cons (λ i, f i = j) i nodes)).
    destruct (decide (Exists (λ i, f i = j) nodes)) as [Hex|Hex].
    + rewrite !bool_decide_eq_true_2 //. by right.
    + rewrite (bool_decide_eq_false_2 _ Hex).
      destruct (decide (f i = j)) as [<-|Hne].
      * rewrite list_lookup_insert_eq //.
        rewrite bool_decide_eq_true_2 //. by left.
      * rewrite list_lookup_insert_ne //.
        rewrite bool_decide_eq_false_2 //. tauto.
Qed.

Section steps_facts.
Context {S : Type} (R : relation S) `{!PreOrder R}.

Lemma steps_bind {A B} (c : M S A) (k : A → M S B) :
  steps R c → (∀ a, steps R (k a)) → steps R (c ≫= k).
Proof.
  intros Hc Hk σ. specialize (Hc σ).
  unfold mbind, M_bind, bindM. destruct (c σ) as [[e|a] σ1]; [done|].
  simpl in Hc. etrans; [exact Hc|]. apply Hk.
Qed.

Lemma fsteps_bind {A B} (c : M S A) (k : A → M S B) :
  steps R c → (∀ a, fsteps R (k a)) → fsteps R (c ≫= k).
Proof.
  intros Hc Hk σ e σ'. specialize (Hc σ).
  unfold mbind, M_bind, bindM. destruct (c σ) as [[e1|a] σ1]; simpl in Hc.
  - by intros [= <- <-].
  - intros Hka. etrans; [exact Hc|]. by eapply Hk.
Qed.

Lemma steps_ret {A} (a : A) : steps R (mret a : M S A).
Proof. by intros σ. Qed.

Lemma steps_lift_result {A} (r : result A) : steps R (lift_result r : M S A).
Proof. by intros σ. Qed.

Lemma steps_fsteps {A} (c : M S A) : steps R c → fsteps R c.
Proof. intros Hc σ e σ' Hrun. specialize (Hc σ). by rewrite Hrun in Hc. Qed.

End steps_facts.

Section example1_more.
Context `{!Conn2res}.
Context (DATA_DIR OUTPUT_DIR : string) (RSN_MAPPING : ndarray).
Import Example1 Example1Spec Example1Log.

(** X10.  The input matrix built in [run_workflow]: an input node outside
    [-n, n) makes the assignment raise [IndexError]; otherwise the matrix
    is one float64 row of [n] entries that holds a one exactly at the
    columns named by the input nodes, a negative index counting from the
    end, and a zero elsewhere. *)
Theorem X10_make_w_in_bounds (n : nat) (input_nodes : list Z) :
  match make_w_in n input_nodes with
  | inl e =>
      e = IndexError "index is out of bounds for axis 1" ∧
      Exists (λ i, ¬ (- Z.of_nat n ≤ i < Z.of_nat n)%Z) input_nodes
  | inr w_in =>
      Forall (λ i, (- Z.of_nat n ≤ i < Z.of_nat n)%Z) input_nodes ∧
      dtype w_in = np_float64 ∧ shape w_in = [1; n] ∧
      length (data w_in) = n ∧
      ∀ j : nat, j < n →
        data w_in !! j
          = Some (if bool_decide
                       (Exists (λ i, (i `mod` Z.of_nat n)%Z = Z.of_nat j)
                          input_nodes)
                  then float64_one else 0%Z)
  end.
Proof.
  unfold make_w_in.
  destruct (list_find _ input_nodes) as [[k i]|] eqn:Hfind.
  - apply list_find_Some in Hfind as (Hk & Hi & _).
    split; [done|]. apply Exists_exists. exists i. split; [|done].
    by eapply list_elem_of_lookup_2.
  - apply list_find_None in Hfind. simpl.
    split_and!; try done.
    + eapply Forall_impl; [exact Hfind|]. intros i Hi. simpl in Hi.
      by apply dec_stable in Hi.
    + by rewrite foldl_insert_length length_replicate.
    + intros j Hj. rewrite foldl_insert_lookup; [|by rewrite length_replicate].
      rewrite lookup_replicate_2 //.
      trans (Some (if bool_decide (Exists (λ i : Z,
                      Z.to_nat (i `mod` Z.of_nat n) = j) input_nodes)
                   then float64_one else 0%Z)); [by case_bool_decide|].
      f_equal. apply (f_equal (λ b : bool, if b then float64_one else 0%Z)).
      apply bool_decide_ext.
      rewrite !Exists_exists. apply exist_proper; intros i.
      apply and_iff_compat_l.
      pose proof (Z.mod_pos_bound i (Z.of_nat n)). lia.
Qed.


#[global] Instance same_files_preorder : PreOrder same_files.
Proof.
  split; [done|]. unfold same_files. intros σ1 σ2 σ3 H12 H23. congruence.
Qed.

#[global] Instance logged_preorder b φ : PreOrder (logged b φ).
Proof.
  split.
  - intros σ. split; [done|]. exists []. by rewrite app_nil_r.
  - intros σ1 σ2 σ3 [Hr1 (evs1 & Hl1 & Hf1)] [Hr2 (evs2 & Hl2 & Hf2)]. split.
    + intros Hb. rewrite Hr2 // Hr1 //.
    + exists (evs1 ++ evs2). rewrite Hl2 Hl1 -assoc. split; [done|].
      by apply Forall_app.
Qed.

Lemma emit_same_files ev : steps same_files (emit ev).
Proof. by intros σ. Qed.

Lemma emit_logged b (φ : event → Prop) ev : φ ev → steps (logged b φ) (emit ev).
Proof.
  intros Hev σ. split; [done|]. exists [ev]. split; [done|]. by constructor.
Qed.

Lemma call_same_files {A} ev (r : result A) : steps same_files (call ev r).
Proof.
  apply steps_bind; [tc_solve|apply emit_same_files|].
  intros _. apply steps_lift_result. tc_solve.
Qed.

Lemma call_logged {A} b (φ : event → Prop) ev (r : result A) :
  φ ev → steps (logged b φ) (call ev r).
Proof.
  intros Hev. apply steps_bind; [tc_solve|by apply emit_logged|].
  intros _. apply steps_lift_result. tc_solve.
Qed.

Lemma randomize_same_files swaps c : steps same_files (randomize swaps c).
Proof.
  intros σ. unfold randomize, emit. munfold. simpl.
  by destruct (conn_randomize swaps c (rng σ)) as [[e|c1] g].
Qed.

Lemma randomize_logged (φ : event → Prop) swaps c :
  φ (EvRandomize swaps) → steps (logged false φ) (randomize swaps c).
Proof.
  intros Hev σ. unfold randomize, emit. munfold. simpl.
  destruct (conn_randomize swaps c (rng σ)) as [[e|c1] g]; simpl;
    (split; [done|]); exists [EvRandomize swaps]; (split; [done|]);
    by constructor.
Qed.

Lemma to_csv_logged b (φ : event → Prop) df path :
  φ (EvToCsv path) → steps (logged b φ) (to_csv df path).
Proof.
  intros Hev σ. split; [done|]. exists [EvToCsv path]. split; [done|].
  by constructor.
Qed.

Lemma to_csv_never_fails (R : relation state) df path : fsteps R (to_csv df path).
Proof. by intros σ e σ'. Qed.


Lemma sweep_same_files alphas c w_in output_nodes x_train x_test y_train y_test
    esn r dfs :
  steps same_files
    (sweep RSN_MAPPING alphas c w_in output_nodes x_train x_test y_train
       y_test esn r dfs).
Proof.
  revert esn r dfs. induction alphas as [|alpha alphas IH]; intros esn r dfs.
  - apply steps_ret. tc_solve.
  - cbn [sweep].
    apply steps_bind; [tc_solve|apply emit_same_files|intros _].
    apply steps_bind; [tc_solve|apply call_same_files|intros rs_train].
    apply steps_bind; [tc_solve|apply call_same_files|intros rs_test].
    apply steps_bind; [tc_solve|apply call_same_files|intros [df_res r']].
    apply IH.
Qed.

Lemma sweep_logged b rewire alphas c w_in output_nodes x_train x_test y_train
    y_test esn r dfs :
  steps (logged b (workflow_event rewire))
    (sweep RSN_MAPPING alphas c w_in output_nodes x_train x_test y_train
       y_test esn r dfs).
Proof.
  revert esn r dfs. induction alphas as [|alpha alphas IH]; intros esn r dfs.
  - apply steps_ret. tc_solve.
  - cbn [sweep].
    apply steps_bind; [tc_solve|by apply emit_logged|intros _].
    apply steps_bind; [tc_solve|by apply call_logged|intros rs_train].
    apply steps_bind; [tc_solve|by apply call_logged|intros rs_test].
    apply steps_bind; [tc_solve|by apply call_logged|intros [df_res r']].
    apply IH.
Qed.

(** What follows the optional rewiring in [run_workflow] logs workflow
    events other than a rewiring and keeps the random state. *)
Ltac workflow_steps :=
  repeat first
    [ apply steps_lift_result; tc_solve
    | apply steps_ret; tc_solve
    | by apply call_logged
    | by apply to_csv_logged
    | apply sweep_logged
    | apply steps_bind; [tc_solve| |intros ?];
      repeat match goal with
             | x : (_ * _)%type |- _ => destruct x
             end ].

Lemma run_workflow_logged w x y rewire filename :
  steps (logged (negb rewire) (workflow_event rewire))
    (run_workflow OUTPUT_DIR RSN_MAPPING w x y rewire filename).
Proof.
  unfold run_workflow.
  apply steps_bind; [tc_solve|by apply call_logged|intros c0].
  apply steps_bind; [tc_solve| |intros c1].
  { destruct rewire; [by apply randomize_logged|apply steps_ret; tc_solve]. }
  workflow_steps.
Qed.

Lemma run_workflow_failure_same_files w x y rewire filename :
  fsteps same_files (run_workflow OUTPUT_DIR RSN_MAPPING w x y rewire filename).
Proof.
  unfold run_workflow.
  apply fsteps_bind; [tc_solve|apply call_same_files|intros c0].
  apply fsteps_bind; [tc_solve| |intros c1].
  { destruct rewire; [apply randomize_same_files|apply steps_ret; tc_solve]. }
  apply fsteps_bind; [tc_solve|apply call_same_files|intros c].
  apply fsteps_bind; [tc_solve|apply call_same_files|intros input_nodes].
  apply fsteps_bind; [tc_solve|apply call_same_files|intros output_nodes].
  apply fsteps_bind; [tc_solve|apply steps_lift_result; tc_solve|intros w_in].
  apply fsteps_bind; [tc_solve|apply call_same_files|intros est].
  apply fsteps_bind; [tc_solve|apply call_same_files|intros [[[x1 x2] y1] y2]].
  apply fsteps_bind; [tc_solve|apply sweep_same_files|intros dfs].
  apply fsteps_bind; [tc_solve|apply steps_lift_result; tc_solve|intros big].
  apply fsteps_bind; [tc_solve|apply steps_lift_result; tc_solve|intros m0].
  apply fsteps_bind; [tc_solve|apply steps_lift_result; tc_solve|intros table].
  apply to_csv_never_fails.
Qed.


Lemma call_eq {A} ev (r : result A) σ a :
  r = inr a →
  call ev r σ = (inr a, mk_state (rng σ) (fs σ) (log σ ++ [ev])).
Proof. intros ->. done. Qed.

Lemma randomize_eq swaps c σ :
  randomize swaps c σ
    = ((conn_randomize swaps c (rng σ)).1,
       mk_state (conn_randomize swaps c (rng σ)).2 (fs σ)
                (log σ ++ [EvRandomize swaps])).
Proof.
  unfold randomize, emit. munfold. simpl.
  by destruct (conn_randomize swaps c (rng σ)) as [[e|c1] g].
Qed.

Lemma no_randomize_event evs :
  Forall (workflow_event false) evs → ∀ swaps, EvRandomize swaps ∉ evs.
Proof.
  intros Hall swaps Hin. rewrite Forall_forall in Hall.
  by destruct (Hall _ Hin).
Qed.

(** X11.  One [run_workflow] call writes at most one file, whatever its
    outcome: every path other than its own scores file is left as it
    was; a call that raises has written nothing at all; a call that
    returns has left a table with the columns alpha, module, n_nodes and
    corrcoef at its scores path. *)
Theorem X11_workflow_writes_only_its_scores_file w x y rewire filename σ :
  let r := (run_workflow OUTPUT_DIR RSN_MAPPING w x y rewire filename σ).1 in
  let σ' := (run_workflow OUTPUT_DIR RSN_MAPPING w x y rewire filename σ).2 in
  (∀ p, p ≠ scores_path OUTPUT_DIR filename → fs σ' !! p = fs σ !! p) ∧
  match r with
  | inl _ => fs σ' = fs σ
  | inr _ =>
      ∃ table,
        fs σ' !! scores_path OUTPUT_DIR filename = Some table ∧
        columns table = ["alpha"; "module"; "n_nodes"; "corrcoef"]
  end.
Proof.
  destruct (run_workflow OUTPUT_DIR RSN_MAPPING w x y rewire filename σ)
    as [[e|[]] σ'] eqn:Hrun; simpl.
  - apply run_workflow_failure_same_files in Hrun. unfold same_files in Hrun.
    by rewrite Hrun.
  - apply run_workflow_success in Hrun
      as (c0 & c & w_in & output_nodes & x_train & x_test & y_train & y_test
          & ps & big & table & _ & _ & _ & _ & _ & _ & Hsel & Hfs & _).
    rewrite Hfs. split.
    + intros p Hp. by rewrite lookup_insert_ne.
    + exists table. rewrite lookup_insert_eq. split; [done|].
      unfold frame_select in Hsel.
      destruct (list_find _ _) as [[? ?]|]; by simplify_eq.
Qed.

(** X12.  With [rewire=False] a [run_workflow] call never rewires,
    whatever its outcome: it logs no [randomize] call and leaves the
    random state of the process as it found it. *)
Theorem X12_no_rewire_never_randomizes w x y filename σ :
  let σ' := (run_workflow OUTPUT_DIR RSN_MAPPING w x y false filename σ).2 in
  rng σ' = rng σ ∧
  ∃ evs, log σ' = log σ ++ evs ∧ ∀ swaps, EvRandomize swaps ∉ evs.
Proof.
  destruct (run_workflow_logged w x y false filename σ)
    as [Hrng (evs & Hlog & Hall)].
  split; [by apply Hrng|]. exists evs. split; [done|].
  by apply no_randomize_event.
Qed.

(** X13.  With [rewire=True] a [run_workflow] call whose connectome can
    be built rewires it exactly once, with ten swaps, right after it is
    built and before anything else; whatever the outcome, the random
    state of the process is the one that call left. *)
Theorem X13_rewire_randomizes_once w x y filename σ c :
  Conn w = inr c →
  let σ' := (run_workflow OUTPUT_DIR RSN_MAPPING w x y true filename σ).2 in
  rng σ' = (conn_randomize 10 c (rng σ)).2 ∧
  ∃ evs, log σ' = log σ ++ [EvConn w; EvRandomize 10] ++ evs ∧
         ∀ swaps, EvRandomize swaps ∉ evs.
Proof.
  intros Hc. unfold run_workflow.
  rewrite (bind_inr _ _ _ _ _ (call_eq (EvConn w) (Conn w) σ c Hc)).
  pose proof (randomize_eq 10 c
    (mk_state (rng σ) (fs σ) (log σ ++ [EvConn w]))) as Hrand.
  cbn [rng fs log] in Hrand.
  destruct (conn_randomize 10 c (rng σ)) as [[e|c1] g];
    cbn [fst snd] in Hrand |- *.
  - rewrite (bind_inl _ _ _ _ _ Hrand). cbn [rng fs log fst snd].
    split; [done|]. exists []. split; [by rewrite -app_assoc|]. intros ?.
    apply not_elem_of_nil.
  - rewrite (bind_inr _ _ _ _ _ Hrand).
    match goal with
    | |- context [mbind ?k ?c0 ?σ0] =>
        assert (Hs : steps (logged true (workflow_event false)) (mbind k c0))
          by workflow_steps;
        destruct (Hs σ0) as [Hrng (evs & Hlog & Hall)]
    end.
    cbn [rng fs log] in *. split; [by apply Hrng|].
    exists evs. rewrite Hlog -!app_assoc. split; [done|].
    by apply no_randomize_event.
Qed.

End example1_more.

(** ** Output paths *)

Lemma string_length_app (s t : string) :
  String.length (s +:+ t) = String.length s + String.length t.
Proof. induction s as [|a s IH]; [done|]. by rewrite /= IH. Qed.

Lemma string_app_inj_r (t s1 s2 : string) : s1 +:+ t = s2 +:+ t → s1 = s2.
Proof.
  revert s2. induction s1 as [|a s1 IH]; intros [|b s2] Heq; try done.
  - apply (f_equal String.length) in Heq.
    rewrite !string_length_app /= in Heq. lia.
  - apply (f_equal String.length) in Heq.
    rewrite !string_length_app /= in Heq. lia.
  - injection Heq as -> Heq. f_equal. by apply IH.
Qed.

Lemma os_path_join_inj (a b1 b2 : string) :
  String.prefix "/" b1 = String.prefix "/" b2 →
  os_path_join a b1 = os_path_join a b2 → b1 = b2.
Proof.
  unfold os_path_join. intros <-.
  destruct (String.prefix "/" b1); [done|].
  case_bool_decide; [done|].
  destruct (String.prefix "/" (String.rev a)).
  - apply String.app_inj.
  - intros Heq. by do 2 apply String.app_inj in Heq.
Qed.

Lemma string_prefix_empty (s : string) : String.prefix "" s = true.
Proof. by destruct s. Qed.

Lemma prefix_slash_app (c s1 s2 t : string) :
  String.prefix "/" ((c +:+ "_" +:+ s1) +:+ t)
    = String.prefix "/" ((c +:+ "_" +:+ s2) +:+ t).
Proof.
  destruct c as [|a c]; [done|].
  change ((String a c +:+ "_" +:+ s1) +:+ t)
    with (String a ((c +:+ "_" +:+ s1) +:+ t)).
  change ((String a c +:+ "_" +:+ s2) +:+ t)
    with (String a ((c +:+ "_" +:+ s2) +:+ t)).
  cbn [String.prefix]. destruct (Ascii.ascii_dec _ a); [|done].
  by rewrite !string_prefix_empty.
Qed.

Section paths.
Context `{!Conn2res} (OUTPUT_DIR : string).
Import Example1 Example1Spec.

Lemma scores_path_inj (c s1 s2 : string) :
  scores_path OUTPUT_DIR (Some (c +:+ "_" +:+ s1))
    = scores_path OUTPUT_DIR (Some (c +:+ "_" +:+ s2)) →
  s1 = s2.
Proof.
  unfold scores_path. simpl. intros Heq.
  apply os_path_join_inj in Heq.
  - apply string_app_inj_r in Heq. by do 2 apply String.app_inj in Heq.
  - apply prefix_slash_app.
Qed.

Lemma output_paths_eq connectome n :
  output_paths OUTPUT_DIR connectome n
    = (λ s, scores_path OUTPUT_DIR (Some (connectome +:+ "_" +:+ s)))
        <$> ("empirical" :: ((λ i : nat, "null_" +:+ pretty i) <$> seq 0 n)).
Proof.
  unfold output_paths, output_ids. rewrite !fmap_cons -!list_fmap_compose.
  f_equal.
Qed.

Lemma output_paths_NoDup connectome n :
  NoDup (output_paths OUTPUT_DIR connectome n).
Proof.
  rewrite output_paths_eq. apply NoDup_fmap_2.
  { intros s1 s2. apply scores_path_inj. }
  constructor.
  - rewrite list_elem_of_fmap. by intros (i & ? & _).
  - apply NoDup_fmap_2; [|apply NoDup_seq].
    intros i j Heq. apply String.app_inj in Heq. by apply pretty_nat_inj in Heq.
Qed.

Lemma output_paths_length connectome n :
  length (output_paths OUTPUT_DIR connectome n) = S n.
Proof. by rewrite /output_paths /output_ids /= !length_fmap length_seq. Qed.

End paths.

#[local] Set Warnings "-clear-no-such-hyp".

Section experiment_facts.
Context `{!Conn2res}.
Context (DATA_DIR OUTPUT_DIR : string) (RSN_MAPPING : ndarray).
Import Example1 Example1Spec Example1Log.

(** One job: it writes its own scores file when it returns and nothing
    when it raises. *)
Lemma run_job_files sch i p files r files' :
  run_job OUTPUT_DIR RSN_MAPPING sch i p files = (r, files') →
  match r with
  | inl _ => files' = files
  | inr _ => ∃ table, files' = <[scores_path OUTPUT_DIR (Some (job_filename p)) := table]> files
  end.
Proof.
  unfold run_job.
  destruct (run_workflow _ _ _ _ _ _ _ _) as [[e|[]] σ'] eqn:Hrun;
    intros [= <- <-].
  - by apply run_workflow_failure_same_files in Hrun.
  - apply run_workflow_success in Hrun
      as (c0 & c & w_in & output_nodes & x_train & x_test & y_train & y_test
          & ps & big & table & _ & _ & _ & _ & _ & _ & _ & Hfs & _).
    by exists table.
Qed.

Lemma run_jobs_files sch params order files outs files' :
  run_jobs OUTPUT_DIR RSN_MAPPING sch params order files = (outs, files') →
  dom files ⊆ dom files' ∧
  dom files' ⊆ dom files ∪ list_to_set ((λ p, scores_path OUTPUT_DIR (Some (job_filename p))) <$> params) ∧
  ∀ i, (i, inr ()) ∈ outs →
       ∃ p, params !! i = Some p ∧ scores_path OUTPUT_DIR (Some (job_filename p)) ∈ dom files'.
Proof.
  revert files outs files'.
  induction order as [|i order IH]; intros files outs files' Hrun.
  - simpl in Hrun. simplify_eq. split_and!; [done|set_solver|].
    by intros i ?%elem_of_nil.
  - simpl in Hrun. destruct (params !! i) as [p|] eqn:Hp; [|by apply IH].
    destruct (run_job _ _ _ _ _ _) as [r files1] eqn:Hjob.
    destruct (run_jobs _ _ _ _ _ _) as [outs2 files2] eqn:Hrest.
    simplify_eq. apply IH in Hrest as (Hsub & Hsup & Houts).
    apply run_job_files in Hjob.
    assert (Hin : scores_path OUTPUT_DIR (Some (job_filename p)) ∈ (list_to_set ((λ p, scores_path OUTPUT_DIR (Some (job_filename p))) <$> params)
                                 : gset string)).
    { apply elem_of_list_to_set, list_elem_of_fmap. exists p.
      split; [done|]. by eapply list_elem_of_lookup_2. }
    assert (dom files ⊆ dom files1 ∧
            dom files1 ⊆ dom files ∪ {[scores_path OUTPUT_DIR (Some (job_filename p))]} ∧
            (r = inr () → scores_path OUTPUT_DIR (Some (job_filename p)) ∈ dom files1)) as (H1 & H2 & H3).
    { destruct r as [e|[]].
      - subst files1. split_and!; [done|set_solver|done].
      - destruct Hjob as (table & ->). rewrite dom_insert_L.
        split_and!; set_solver. }
    split_and!; [set_solver|set_solver|].
    intros j [Hj|Hj]%elem_of_cons.
    + simplify_eq. exists p. split; [done|]. by apply Hsub, H3.
    + by apply Houts.
Qed.

Lemma submit_all_eq (params : list job) σ :
  submit_all params σ
    = (inr (), mk_state (rng σ) (fs σ) (log σ ++ (EvApplyAsync <$> params))).
Proof.
  revert σ. induction params as [|p params IH]; intros σ.
  - rewrite /= app_nil_r. by destruct σ.
  - cbn [submit_all]. erewrite bind_inr; [|apply emit_eq].
    rewrite IH /= -app_assoc //.
Qed.

Lemma get_all_success outs ids σ σ' :
  get_all outs ids σ = (inr (), σ') →
  σ' = mk_state (rng σ) (fs σ) (log σ ++ (EvGet <$> ids)) ∧
  ∀ i, i ∈ ids → (i, inr ()) ∈ outs.
Proof.
  revert σ. induction ids as [|i ids IH]; intros σ Hrun.
  - simpl in Hrun. munfold. simplify_eq. rewrite /= app_nil_r.
    split; [|by intros i ?%elem_of_nil].
    by match goal with |- ?s = _ => destruct s end.
  - cbn [get_all] in Hrun.
    apply bind_inv_inr in Hrun as ([] & σ1 & Hget & Hrun).
    unfold get in Hget.
    apply bind_inv_inr in Hget as ([] & σ0 & Hemit & Hget).
    rewrite emit_eq in Hemit. simplify_eq.
    destruct (list_find _ outs) as [[k [j r]]|] eqn:Hfind; [|done].
    unfold lift_result in Hget. simplify_eq.
    apply list_find_Some in Hfind as (Hk & Hj & _). simpl in Hj. subst j.
    apply IH in Hrun as [-> Hall]. cbn [rng fs log].
    rewrite fmap_cons -app_assoc. split; [done|].
    intros j [->|Hj]%elem_of_cons; [|by apply Hall].
    by eapply list_elem_of_lookup_2.
Qed.

Lemma null_params_length connectome w x y n :
  length (null_params connectome w x y n) = n.
Proof. by rewrite /null_params length_fmap length_seq. Qed.

Lemma null_params_paths connectome w x y n :
  scores_path OUTPUT_DIR (Some (connectome +:+ "_empirical"))
    :: ((λ p, scores_path OUTPUT_DIR (Some (job_filename p))) <$> null_params connectome w x y n)
  = output_paths OUTPUT_DIR connectome n.
Proof.
  rewrite /output_paths /output_ids /null_params fmap_cons.
  by rewrite -!list_fmap_compose.
Qed.

Lemma read_perf_counter_eq sch n σ :
  read_perf_counter sch n σ
    = (inr (perf_counter sch n),
       mk_state (rng σ) (fs σ) (log σ ++ [EvPerfCounter (perf_counter sch n)])).
Proof. done. Qed.

(** A [run_experiment] call that returns: what it loaded, ran, logged
    and wrote. *)
Lemma run_experiment_success sch connectome x y σ σ' :
  run_experiment DATA_DIR OUTPUT_DIR RSN_MAPPING sch connectome x y σ
    = (inr (), σ') →
  ∃ w evs table outs,
    np_load (os_path_join DATA_DIR (connectome +:+ ".npy")) = inr w ∧
    Forall (workflow_event false) evs ∧
    log (run_workflow OUTPUT_DIR RSN_MAPPING w x y false
           (Some (connectome +:+ "_empirical"))
           (mk_state (rng σ) (fs σ)
              (log σ ++ [EvLoad (os_path_join DATA_DIR
                                   (connectome +:+ ".npy"))]))).2
      = (log σ ++ [EvLoad (os_path_join DATA_DIR (connectome +:+ ".npy"))])
          ++ evs ∧
    last evs
      = Some (EvToCsv (scores_path OUTPUT_DIR
                         (Some (connectome +:+ "_empirical")))) ∧
    run_jobs OUTPUT_DIR RSN_MAPPING sch (null_params connectome w x y 500)
      (completion_order sch)
      (<[scores_path OUTPUT_DIR (Some (connectome +:+ "_empirical")) := table]>
         (fs σ))
      = (outs, fs σ') ∧
    (∀ i, i < 500 → (i, inr ()) ∈ outs) ∧
    rng σ' = rng σ ∧
    log σ' = log σ
      ++ [EvLoad (os_path_join DATA_DIR (connectome +:+ ".npy"))]
      ++ evs
      ++ [EvPrint (LF +:+ "INITIATING PROCESSING TIME");
          EvPerfCounter (perf_counter sch 0); EvPool N_PROCESS]
      ++ (EvApplyAsync <$> null_params connectome w x y 500)
      ++ (EvGet <$> seq 0 500)
      ++ [EvPoolClose; EvPrint (LF +:+ "TOTAL PROCESSING TIME");
          EvPerfCounter (perf_counter sch 1);
          EvPrintElapsed (perf_counter sch 1) (perf_counter sch 0);
          EvPrint "END"].
Proof.
  unfold run_experiment. intros Hrun.
  apply bind_inv_inr in Hrun as (w & σ1 & [Hload ->]%call_inv & Hrun).
  apply bind_inv_inr in Hrun as ([] & σ2 & Hemp & Hrun).
  set (params := null_params connectome w x y 500) in *.
  apply bind_inv_inr in Hrun as ([] & σ3 & Hemit & Hrun).
  rewrite emit_eq in Hemit. injection Hemit as <-.
  apply bind_inv_inr in Hrun as (t0 & σ3' & Hclock & Hrun).
  rewrite read_perf_counter_eq in Hclock. injection Hclock as <- <-.
  apply bind_inv_inr in Hrun as ([] & σ4 & Hemit & Hrun).
  rewrite emit_eq in Hemit. injection Hemit as <-.
  apply bind_inv_inr in Hrun as ([] & σ5 & Hsub & Hrun).
  rewrite submit_all_eq in Hsub. injection Hsub as <-.
  apply bind_inv_inr in Hrun as (σ6 & σ7 & Hget & Hrun).
  unfold getM in Hget. injection Hget as <- <-.
  cbn [rng fs log] in Hrun.
  destruct (run_jobs _ _ _ _ _ _) as [outs files] eqn:Hjobs.
  apply bind_inv_inr in Hrun as ([] & σ8 & Hmod & Hrun).
  unfold modifyM in Hmod. injection Hmod as <-. cbn [rng fs log] in Hrun.
  apply bind_inv_inr in Hrun as ([] & σ9 & [-> Hall]%get_all_success & Hrun).
  cbn [rng fs log] in Hrun.
  apply bind_inv_inr in Hrun as ([] & σ10 & Hemit & Hrun).
  rewrite emit_eq in Hemit. injection Hemit as <-.
  apply bind_inv_inr in Hrun as ([] & σ11 & Hemit & Hrun).
  rewrite emit_eq in Hemit. injection Hemit as <-.
  apply bind_inv_inr in Hrun as (t1 & σ12 & Hclock & Hrun).
  rewrite read_perf_counter_eq in Hclock. injection Hclock as <- <-.
  apply bind_inv_inr in Hrun as ([] & σ13 & Hemit & Hrun).
  rewrite emit_eq in Hemit. injection Hemit as <-.
  rewrite emit_eq in Hrun. injection Hrun as <-. cbn [rng fs log].
  destruct (run_workflow_logged OUTPUT_DIR RSN_MAPPING w x y false
              (Some (connectome +:+ "_empirical"))
              (mk_state (rng σ) (fs σ)
                 (log σ ++ [EvLoad (os_path_join DATA_DIR (connectome +:+ ".npy"))])))
    as [Hrng (evs & Hlog & Hevs)].
  pose proof Hlog as Hlog0.
  rewrite Hemp in Hrng, Hlog. cbn [rng fs log snd] in Hrng, Hlog.
  apply run_workflow_success in Hemp
    as (c0 & c & w_in & output_nodes & x_train & x_test & y_train & y_test
        & ps & big & table & _ & _ & _ & _ & Hlog2 & _ & _ & Hfs & _).
  cbn [fs log] in Hfs, Hlog2. rewrite Hfs in Hjobs.
  assert (Hlast : last evs
            = Some (EvToCsv (scores_path OUTPUT_DIR
                               (Some (connectome +:+ "_empirical"))))).
  { rewrite Hlog in Hlog2. apply app_inv_head in Hlog2. rewrite Hlog2.
    by rewrite !app_assoc last_snoc. }
  subst params. rewrite null_params_length in Hall |- *.
  exists w, evs, table, outs. split_and!; try done.
  - intros i Hi. apply Hall. apply elem_of_seq. lia.
  - by apply Hrng.
  - rewrite Hlog -!app_assoc //.
Qed.


Lemma run_experiment_files sch connectome x y σ σ' :
  run_experiment DATA_DIR OUTPUT_DIR RSN_MAPPING sch connectome x y σ
    = (inr (), σ') →
  dom (fs σ')
    = dom (fs σ) ∪ list_to_set (output_paths OUTPUT_DIR connectome 500).
Proof.
  intros (w & evs & table & outs & _ & _ & _ & _ & Hjobs & Hall & Hrng & _)
    %run_experiment_success.
  revert Hjobs Hall. generalize 500. intros n Hjobs Hall.
  apply run_jobs_files in Hjobs as (Hsub & Hsup & Houts).
  rewrite dom_insert_L in Hsub, Hsup.
  rewrite -(null_params_paths connectome w x y n) list_to_set_cons.
  apply set_eq. intros p. split; [set_solver|].
  rewrite !elem_of_union elem_of_singleton elem_of_list_to_set.
  intros [Hp|[->|Hp]]; [set_solver|set_solver|].
  apply list_elem_of_fmap in Hp as (j & -> & Hj).
  apply list_elem_of_lookup_1 in Hj as (i & Hi).
  destruct (Houts i) as (j' & Hi' & Hdom).
  { apply Hall. apply lookup_lt_Some in Hi.
    by rewrite null_params_length in Hi. }
  rewrite Hi in Hi'. by injection Hi' as <-.
Qed.

(** X14.  A [run_experiment] call that returns has written 501 files and
    no other: the files afterwards are those of before together with the
    scores files of the empirical run and of the 500 nulls, whose paths
    are pairwise distinct, in whatever order the jobs finished; the
    random state of the calling process is unchanged. *)
Theorem X14_experiment_output_files sch connectome x y σ σ' :
  run_experiment DATA_DIR OUTPUT_DIR RSN_MAPPING sch connectome x y σ
    = (inr (), σ') →
  dom (fs σ')
    = dom (fs σ) ∪ list_to_set (output_paths OUTPUT_DIR connectome 500) ∧
  NoDup (output_paths OUTPUT_DIR connectome 500) ∧
  length (output_paths OUTPUT_DIR connectome 500) = 501 ∧
  rng σ' = rng σ.
Proof.
  intros Hrun. split; [by apply (run_experiment_files sch _ x y)|].
  split; [apply output_paths_NoDup|].
  split; [apply output_paths_length|].
  apply run_experiment_success in Hrun
    as (w & evs & table & outs & _ & _ & _ & _ & _ & _ & Hrng & _).
  exact Hrng.
Qed.

(** X15.  The order of a [run_experiment] call that returns: the
    connectome is loaded; the empirical workflow runs to its end in the
    calling process, without rewiring, its last act being to write the
    empirical scores file; only then the clock is read and the pool of
    32 workers is created; all 500 jobs are submitted, in the order of
    their index, before the first result is collected; the results are
    collected in the order of submission; the pool is closed after the
    last of them, and the clock is read again for the elapsed time that
    is printed. *)
Theorem X15_experiment_order sch connectome x y σ σ' :
  run_experiment DATA_DIR OUTPUT_DIR RSN_MAPPING sch connectome x y σ
    = (inr (), σ') →
  ∃ w evs,
    np_load (os_path_join DATA_DIR (connectome +:+ ".npy")) = inr w ∧
    Forall (workflow_event false) evs ∧
    last evs
      = Some (EvToCsv (scores_path OUTPUT_DIR
                         (Some (connectome +:+ "_empirical")))) ∧
    log σ' = log σ
      ++ [EvLoad (os_path_join DATA_DIR (connectome +:+ ".npy"))]
      ++ evs
      ++ [EvPrint (LF +:+ "INITIATING PROCESSING TIME");
          EvPerfCounter (perf_counter sch 0); EvPool 32]
      ++ (EvApplyAsync <$> null_params connectome w x y 500)
      ++ (EvGet <$> seq 0 500)
      ++ [EvPoolClose; EvPrint (LF +:+ "TOTAL PROCESSING TIME");
          EvPerfCounter (perf_counter sch 1);
          EvPrintElapsed (perf_counter sch 1) (perf_counter sch 0);
          EvPrint "END"].
Proof.
  intros (w & evs & table & outs & Hload & Hevs & _ & Hlast & _ & _ & _ & Hlog)
    %run_experiment_success.
  exists w, evs. split; [exact Hload|]. split; [exact Hevs|].
  split; [exact Hlast|exact Hlog].
Qed.

Lemma logged_mono b (φ ψ : event → Prop) σ σ' :
  (∀ ev, φ ev → ψ ev) → logged b φ σ σ' → logged false ψ σ σ'.
Proof.
  intros Himp [_ (evs & Hlog & Hall)]. split; [done|].
  exists evs. split; [done|]. by eapply Forall_impl.
Qed.

Lemma get_all_logged (φ : event → Prop) outs ids :
  (∀ i, φ (EvGet i)) → steps (logged false φ) (get_all outs ids).
Proof.
  intros Hφ. induction ids as [|i ids IH].
  - apply steps_ret. tc_solve.
  - cbn [get_all]. apply steps_bind; [tc_solve| |by intros _].
    unfold get. apply steps_bind; [tc_solve|by apply emit_logged|intros _].
    intros σ. by destruct (list_find _ outs) as [[? [? ?]]|].
Qed.

(** X17.  When a [run_experiment] call raises, [pool.close()] has not
    been called: whichever step failed (loading the connectome, the
    empirical workflow, a null job whose exception [get] re-raises), the
    exception leaves the function before the pool is closed. *)
Theorem X17_failed_experiment_leaves_pool_open sch connectome x y σ e σ' :
  run_experiment DATA_DIR OUTPUT_DIR RSN_MAPPING sch connectome x y σ
    = (inl e, σ') →
  ∃ evs, log σ' = log σ ++ evs ∧ EvPoolClose ∉ evs.
Proof.
  intros Hrun.
  cut (logged false (λ ev, ev ≠ EvPoolClose) σ σ').
  { intros [_ (evs & Hlog & Hall)]. exists evs. split; [done|].
    intros Hin. rewrite Forall_forall in Hall. by apply (Hall _ Hin). }
  revert σ e σ' Hrun. unfold run_experiment.
  apply fsteps_bind; [tc_solve|by apply call_logged|intros w].
  apply fsteps_bind; [tc_solve| |intros []].
  { intros σ. eapply logged_mono; [|apply run_workflow_logged].
    by intros []. }
  apply fsteps_bind; [tc_solve|by apply emit_logged|intros _].
  apply fsteps_bind; [tc_solve| |intros t0].
  { intros σ. rewrite read_perf_counter_eq. split; [done|].
    eexists. split; [done|]. by repeat constructor. }
  apply fsteps_bind; [tc_solve|by apply emit_logged|intros _].
  apply fsteps_bind; [tc_solve| |intros _].
  { intros σ. rewrite submit_all_eq. split; [done|].
    eexists. split; [done|]. apply Forall_fmap, Forall_forall. by intros. }
  apply fsteps_bind; [tc_solve|by intros σ|intros σ0].
  destruct (run_jobs _ _ _ _ _ _) as [outs files].
  apply fsteps_bind; [tc_solve| |intros _].
  { intros σ. split; [done|]. exists []. by rewrite /= app_nil_r. }
  apply fsteps_bind; [tc_solve|by apply get_all_logged|intros _].
  by intros σ e σ'.
Qed.

(** X18.  When the empirical workflow raises, [run_experiment] raises the
    same exception at once: no pool is created, no null job is submitted
    and no file is written. *)
Theorem X18_failed_empirical_run_stops_experiment sch connectome x y σ w e σ' :
  np_load (os_path_join DATA_DIR (connectome +:+ ".npy")) = inr w →
  run_workflow OUTPUT_DIR RSN_MAPPING w x y false
      (Some (connectome +:+ "_empirical"))
      (mk_state (rng σ) (fs σ)
         (log σ ++ [EvLoad (os_path_join DATA_DIR (connectome +:+ ".npy"))]))
    = (inl e, σ') →
  run_experiment DATA_DIR OUTPUT_DIR RSN_MAPPING sch connectome x y σ
    = (inl e, σ') ∧
  fs σ' = fs σ ∧ rng σ' = rng σ ∧
  ∃ evs,
    log σ' = log σ
      ++ [EvLoad (os_path_join DATA_DIR (connectome +:+ ".npy"))] ++ evs ∧
    Forall (workflow_event false) evs.
Proof.
  intros Hload Hemp. split.
  - unfold run_experiment.
    rewrite (bind_inr _ _ _ _ _ (call_eq _ _ σ w Hload)).
    by rewrite (bind_inl _ _ _ _ _ Hemp).
  - pose proof (run_workflow_failure_same_files OUTPUT_DIR RSN_MAPPING
                  _ _ _ _ _ _ _ _ Hemp) as Hfs.
    destruct (run_workflow_logged OUTPUT_DIR RSN_MAPPING w x y false
                (Some (connectome +:+ "_empirical"))
                (mk_state (rng σ) (fs σ)
                   (log σ ++ [EvLoad (os_path_join DATA_DIR
                                        (connectome +:+ ".npy"))])))
      as [Hrng (evs & Hlog & Hevs)].
    rewrite Hemp in Hrng, Hlog. cbn [rng fs log snd] in Hrng, Hlog.
    split; [done|]. split; [by apply Hrng|].
    exists evs. by rewrite Hlog -app_assoc.
Qed.

End experiment_facts.

Lemma result_pair_eta {A S} (p : result A * S) (a : A) :
  p.1 = inr a → p = (inr a, p.2).
Proof. destruct p as [r σ]. simpl. by intros <-. Qed.

Lemma result_pair_eta_inl {A S} (p : result A * S) (e : exn) :
  p.1 = inl e → p = (inl e, p.2).
Proof. destruct p as [r σ]. simpl. by intros <-. Qed.

Lemma stub_experiment_returns :
  (Example1.run_experiment "data" "out" StubLab.rsn_two StubLab.sch
     "consensus_0" StubLab.x StubLab.y StubLab.σ0).1 = inr ().
Proof. vm_compute. reflexivity. Qed.

Lemma X13_witness :
  Example1.rng
    (Example1.run_workflow "out" StubLab.rsn_two StubLab.w StubLab.x
       StubLab.y true (Some "consensus_0_null_7") StubLab.σ0).2
    = (conn_randomize 10 StubLab.w (Example1.rng StubLab.σ0)).2 ∧
  ∃ evs,
    Example1.log
      (Example1.run_workflow "out" StubLab.rsn_two StubLab.w StubLab.x
         StubLab.y true (Some "consensus_0_null_7") StubLab.σ0).2
      = Example1.log StubLab.σ0
          ++ [Example1.EvConn StubLab.w; Example1.EvRandomize 10] ++ evs ∧
    ∀ swaps, Example1.EvRandomize swaps ∉ evs.
Proof.
  apply (X13_rewire_randomizes_once "out" StubLab.rsn_two StubLab.w StubLab.x
           StubLab.y (Some "consensus_0_null_7") StubLab.σ0 StubLab.w).
  reflexivity.
Defined.

Lemma X14_witness :
  dom (Example1.fs
         (Example1.run_experiment "data" "out" StubLab.rsn_two StubLab.sch
            "consensus_0" StubLab.x StubLab.y StubLab.σ0).2)
    = dom (Example1.fs StubLab.σ0)
        ∪ list_to_set (Example1Spec.output_paths "out" "consensus_0" 500) ∧
  NoDup (Example1Spec.output_paths "out" "consensus_0" 500) ∧
  length (Example1Spec.output_paths "out" "consensus_0" 500) = 501 ∧
  Example1.rng
    (Example1.run_experiment "data" "out" StubLab.rsn_two StubLab.sch
       "consensus_0" StubLab.x StubLab.y StubLab.σ0).2
    = Example1.rng StubLab.σ0.
Proof.
  apply (X14_experiment_output_files "data" "out" StubLab.rsn_two StubLab.sch
           "consensus_0" StubLab.x StubLab.y StubLab.σ0).
  apply result_pair_eta, stub_experiment_returns.
Defined.

Lemma X15_witness :
  ∃ w evs,
    np_load (os_path_join "data" ("consensus_0" +:+ ".npy")) = inr w ∧
    Forall (Example1Log.workflow_event false) evs ∧
    last evs
      = Some (Example1.EvToCsv
                (Example1.scores_path "out"
                   (Some ("consensus_0" +:+ "_empirical")))) ∧
    Example1.log
      (Example1.run_experiment "data" "out" StubLab.rsn_two StubLab.sch
         "consensus_0" StubLab.x StubLab.y StubLab.σ0).2
    = Example1.log StubLab.σ0
      ++ [Example1.EvLoad (os_path_join "data" ("consensus_0" +:+ ".npy"))]
      ++ evs
      ++ [Example1.EvPrint (Example1.LF +:+ "INITIATING PROCESSING TIME");
          Example1.EvPerfCounter (Example1.perf_counter StubLab.sch 0);
          Example1.EvPool 32]
      ++ (Example1.EvApplyAsync
            <$> Example1.null_params "consensus_0" w StubLab.x StubLab.y 500)
      ++ (Example1.EvGet <$> seq 0 500)
      ++ [Example1.EvPoolClose;
          Example1.EvPrint (Example1.LF +:+ "TOTAL PROCESSING TIME");
          Example1.EvPerfCounter (Example1.perf_counter StubLab.sch 1);
          Example1.EvPrintElapsed (Example1.perf_counter StubLab.sch 1)
            (Example1.perf_counter StubLab.sch 0);
          Example1.EvPrint "END"].
Proof.
  apply (X15_experiment_order "data" "out" StubLab.rsn_two StubLab.sch
           "consensus_0" StubLab.x StubLab.y StubLab.σ0).
  apply result_pair_eta, stub_experiment_returns.
Defined.

Lemma X17_witness :
  ∃ evs,
    Example1.log
      (Example1.run_experiment (H:=StubLab2.lab2) "data" "out" StubLab.rsn_two
         StubLab2.sch2 "consensus_0" StubLab.x StubLab.y StubLab2.σ0).2
    = Example1.log StubLab2.σ0 ++ evs ∧
    Example1.EvPoolClose ∉ evs.
Proof.
  apply (X17_failed_experiment_leaves_pool_open (H:=StubLab2.lab2) "data" "out"
           StubLab.rsn_two StubLab2.sch2 "consensus_0" StubLab.x StubLab.y
           StubLab2.σ0 (ValueError "cannot rewire")).
  apply (result_pair_eta_inl _ (ValueError "cannot rewire")).
  vm_compute. reflexivity.
Defined.

Lemma X18_witness :
  Example1.run_experiment (H:=StubLab2.lab2) "data" "out" StubLab.rsn_two
      StubLab2.sch2 "broken" StubLab.x StubLab.y StubLab2.σ0
    = (inl (IndexError "index is out of bounds for axis 1"),
       Example1.mk_state (H:=StubLab2.lab2) 0 ∅
         [Example1.EvLoad "data/broken.npy";
          Example1.EvConn (mk_ndarray np_float64 [] [0%Z]);
          Example1.EvScaleAndNormalize; Example1.EvGetNodes "subctx";
          Example1.EvGetNodes "ctx"]) ∧
  Example1.fs
    (Example1.mk_state (H:=StubLab2.lab2) 0 ∅
       [Example1.EvLoad "data/broken.npy";
        Example1.EvConn (mk_ndarray np_float64 [] [0%Z]);
        Example1.EvScaleAndNormalize; Example1.EvGetNodes "subctx";
        Example1.EvGetNodes "ctx"])
    = Example1.fs StubLab2.σ0 ∧
  Example1.rng
    (Example1.mk_state (H:=StubLab2.lab2) 0 ∅
       [Example1.EvLoad "data/broken.npy";
        Example1.EvConn (mk_ndarray np_float64 [] [0%Z]);
        Example1.EvScaleAndNormalize; Example1.EvGetNodes "subctx";
        Example1.EvGetNodes "ctx"])
    = Example1.rng StubLab2.σ0 ∧
  ∃ evs,
    Example1.log
      (Example1.mk_state (H:=StubLab2.lab2) 0 ∅
         [Example1.EvLoad "data/broken.npy";
          Example1.EvConn (mk_ndarray np_float64 [] [0%Z]);
          Example1.EvScaleAndNormalize; Example1.EvGetNodes "subctx";
          Example1.EvGetNodes "ctx"])
      = Example1.log StubLab2.σ0
          ++ [Example1.EvLoad (os_path_join "data" ("broken" +:+ ".npy"))]
          ++ evs ∧
    Forall (Example1Log.workflow_event false) evs.
Proof.
  apply (X18_failed_empirical_run_stops_experiment (H:=StubLab2.lab2) "data"
           "out" StubLab.rsn_two StubLab2.sch2 "broken" StubLab.x StubLab.y
           StubLab2.σ0 (mk_ndarray np_float64 [] [0%Z])).
  - reflexivity.
  - vm_compute. reflexivity.
Defined.
